(** * scripts/extract-qoder-wiki.py: the documentation scaffolder

    A shallow embedding of the script and of the fragment of the Python
    runtime it calls ([pathlib.Path], [open], [datetime.now], [print]),
    followed by the properties of one run.

    Modelling conventions.
    - A path is the list of its components below the working directory;
      the working directory itself is the empty list.
    - The filesystem is a finite map from paths to nodes (regular file
      with its content, or directory).  Permissions, symbolic links and
      disk quotas are outside the model; text is written with '\n' line
      ends as on POSIX.
    - [datetime.now()] reads a clock given as a function from the number
      of earlier readings to a moment.
    - A raised exception stops the run and leaves the world as it was at
      the raise: nothing is rolled back. *)

From Stdlib Require Import Ascii String.
From stdpp Require Import base strings list gmap.

(** ** The runtime fragment *)

Inductive node : Type :=
  | File (content : string)
  | Dir.

Abbreviation path := (list string).

Record datetime : Type := Datetime {
  year : nat; month : nat; day : nat;
  hour : nat; minute : nat; second : nat
}.

(** Calls into the filesystem, in the order they are made. *)
Inductive event : Type :=
  | EvExists (p : path)
  | EvMkdir (p : path)
  | EvOpenW (p : path).

Inductive exn : Type :=
  | FileExistsError (p : path)
  | FileNotFoundError (p : path)
  | NotADirectoryError (p : path)
  | IsADirectoryError (p : path).

Record world : Type := World {
  fs : gmap path node;
  cwd : path;
  clock : nat → datetime;
  ticks : nat;
  stdout : list string;
  calls : list event
}.

Inductive outcome (A : Type) : Type :=
  | Returned (a : A)
  | Raised (e : exn).
Arguments Returned {A} a.
Arguments Raised {A} e.

(** State and exceptions: a computation maps a world to an outcome and
    the world it leaves behind. *)
Definition M (A : Type) : Type := world → outcome A * world.

#[global] Instance M_ret : MRet M := λ A a w, (Returned a, w).
#[global] Instance M_bind : MBind M := λ A B k m w,
  match m w with
  | (Returned a, w') => k a w'
  | (Raised e, w') => (Raised e, w')
  end.

Definition raise {A : Type} (e : exn) : M A := λ w, (Raised e, w).

Definition set_fs (m : gmap path node) (w : world) : world :=
  World m (cwd w) (clock w) (ticks w) (stdout w) (calls w).

Definition log_call (e : event) : M unit := λ w,
  (Returned tt,
   World (fs w) (cwd w) (clock w) (ticks w) (stdout w) (calls w ++ [e])).

(** [print(s)]: one entry per call, without the line end print adds. *)
Definition print (s : string) : M unit := λ w,
  (Returned tt,
   World (fs w) (cwd w) (clock w) (ticks w) (stdout w ++ [s]) (calls w)).

(** [datetime.now()] *)
Definition datetime_now : M datetime := λ w,
  (Returned (clock w (ticks w)),
   World (fs w) (cwd w) (clock w) (S (ticks w)) (stdout w) (calls w)).

(** [Path.parent] *)
Definition parent (p : path) : path := removelast p.

(** [p / name], for a name without separators. *)
Definition path_join (p : path) (name : string) : path := p ++ [name].

Definition is_dir (m : gmap path node) (p : path) : bool :=
  match p with
  | [] => true
  | _ => match m !! p with Some Dir => true | _ => false end
  end.

Definition exists_in (m : gmap path node) (p : path) : bool :=
  match p with
  | [] => true
  | _ => match m !! p with Some _ => true | None => false end
  end.

(** The error [open] and [mkdir] report when the directory that should
    hold [p] cannot be reached.  The walk from the working directory
    through [rest] stops at the first component that is not a directory:
    a regular file there gives [NotADirectoryError], nothing there gives
    [FileNotFoundError]. *)
Fixpoint walk_error (m : gmap path node) (seen : path) (rest : list string)
    (p : path) : exn :=
  match rest with
  | [] => FileNotFoundError p
  | c :: rest' =>
      match m !! (seen ++ [c]) with
      | Some Dir => walk_error m (seen ++ [c]) rest' p
      | Some (File _) => NotADirectoryError p
      | None => FileNotFoundError p
      end
  end.

Definition parent_error (m : gmap path node) (p : path) : exn :=
  walk_error m [] (parent p) p.

(** [Path.exists()] *)
Definition Path_exists (p : path) : M bool :=
  log_call (EvExists p);;
  ((λ w, (Returned (exists_in (fs w) p), w)) : M bool).

(** [Path.mkdir(exist_ok=True)]: an existing directory is accepted, an
    existing regular file raises. *)
Definition Path_mkdir_exist_ok (p : path) : M unit :=
  log_call (EvMkdir p);;
  ((λ w,
    if is_dir (fs w) (parent p) then
      match p, fs w !! p with
      | [], _ => (Returned tt, w)
      | _, Some Dir => (Returned tt, w)
      | _, Some (File _) => (Raised (FileExistsError p), w)
      | _, None => (Returned tt, set_fs (<[p := Dir]> (fs w)) w)
      end
    else (Raised (parent_error (fs w) p), w)) : M unit).

(** [with open(p, 'w', encoding='utf-8') as f: f.write(content)] *)
Definition open_w_write (p : path) (content : string) : M unit :=
  log_call (EvOpenW p);;
  ((λ w,
    if is_dir (fs w) (parent p) then
      if is_dir (fs w) p then (Raised (IsADirectoryError p), w)
      else (Returned tt, set_fs (<[p := File content]> (fs w)) w)
    else (Raised (parent_error (fs w) p), w)) : M unit).

(** [str(p.absolute())] *)
Definition slash_join (p : path) : string :=
  foldr (λ c acc, "/" +:+ c +:+ acc) "" p.

Definition Path_absolute (p : path) : M string := λ w,
  (Returned (match cwd w ++ p with [] => "/" | q => slash_join q end), w).

(** [s * n] on strings *)
Fixpoint str_mul (s : string) (n : nat) : string :=
  match n with
  | 0 => ""
  | S n' => s +:+ str_mul s n'
  end.

(** A [for] loop over a list, stopping at the first exception. *)
Fixpoint for_each {A : Type} (l : list A) (body : A → M unit) : M unit :=
  match l with
  | [] => mret tt
  | x :: l' => body x;; for_each l' body
  end.

(** *** [strftime('%Y-%m-%d %H:%M:%S')] *)

Definition digit_char (d : nat) : ascii :=
  ascii_of_nat (48 + d).

Fixpoint dec_digits (fuel n : nat) (acc : string) : string :=
  match fuel with
  | 0 => acc
  | S fuel' =>
      let acc' := String (digit_char (n mod 10)) acc in
      if n / 10 =? 0 then acc' else dec_digits fuel' (n / 10) acc'
  end.

Definition show_nat (n : nat) : string := dec_digits (S n) n "".

(** Zero padding to [width], as %m, %d, %H, %M and %S do to two places
    and %Y to four (years a system clock yields have four digits). *)
Definition zero_pad (width : nat) (s : string) : string :=
  str_mul "0" (width - String.length s) +:+ s.

Definition strftime (d : datetime) : string :=
  zero_pad 4 (show_nat (year d)) +:+ "-" +:+
  zero_pad 2 (show_nat (month d)) +:+ "-" +:+
  zero_pad 2 (show_nat (day d)) +:+ " " +:+
  zero_pad 2 (show_nat (hour d)) +:+ ":" +:+
  zero_pad 2 (show_nat (minute d)) +:+ ":" +:+
  zero_pad 2 (show_nat (second d)).

(** ** The script *)

Definition docs_dir : path := ["docs"].

Definition package_json : path := ["package.json"].

Definition wiki_sections : list (string * string) :=
  [ ("Getting Started", "01-getting-started.md");
    ("Technology Stack", "02-technology-stack.md");
    ("Project Structure", "03-project-structure.md");
    ("Frontend Architecture", "04-frontend-architecture.md");
    ("Backend Architecture", "05-backend-architecture.md");
    ("API Endpoints Reference", "06-api-reference.md");
    ("Real-Time Communication", "07-realtime-communication.md");
    ("Component Architecture", "08-component-architecture.md");
    ("State Management Integration", "09-state-management.md");
    ("Authentication Flow", "10-authentication-flow.md");
    ("Data Models & ORM Mapping", "11-data-models.md");
    ("Middleware & Request Processing", "12-middleware.md");
    ("Routing & Navigation", "13-routing-navigation.md") ].

(** The f-string of [create_section_template]; [stamp] stands for the
    interpolated [datetime.now().strftime(...)]. *)
Definition template (section_name stamp : string) : string :=
  "# " +:+ section_name +:+ "

## Overview

*[Copy the content from Qoder Wiki Catalog → " +:+ section_name +:+ " section here]*

## Table of Contents

*[Add section table of contents here]*

## Detailed Documentation

*[Paste the detailed documentation from Qoder here]*

---

*This documentation was extracted from Qoder Wiki Catalog on " +:+ stamp +:+ "*
".

Definition create_section_template (file_path : path) (section_name : string)
  : M unit :=
  now ← datetime_now;
  open_w_write file_path (template section_name (strftime now)).

(** The two literal parts of the f-string of [create_main_readme], before
    and after the interpolated timestamp. *)
Definition readme_head : string :=
  "# FriendFinder Documentation

*Extracted from Qoder Wiki Catalog on ".

Definition readme_tail : string :=
  "*

## Documentation Sections

### Getting Started
- [Getting Started](./01-getting-started.md) - Project setup and initial configuration
- [Technology Stack](./02-technology-stack.md) - Technologies and frameworks used

### Architecture
- [Project Structure](./03-project-structure.md) - File organization and structure
- [Frontend Architecture](./04-frontend-architecture.md) - React component architecture
- [Backend Architecture](./05-backend-architecture.md) - API and server architecture
- [Component Architecture](./08-component-architecture.md) - UI component design

### Development
- [API Endpoints Reference](./06-api-reference.md) - Complete API documentation
- [Real-Time Communication](./07-realtime-communication.md) - Socket.IO and WebRTC
- [State Management Integration](./09-state-management.md) - React Context and hooks
- [Authentication Flow](./10-authentication-flow.md) - User authentication system

### Data & Infrastructure
- [Data Models & ORM Mapping](./11-data-models.md) - Database schemas and models
- [Middleware & Request Processing](./12-middleware.md) - Request handling and middleware
- [Routing & Navigation](./13-routing-navigation.md) - App routing system

## How to Use This Documentation

1. **Start with Getting Started** for project setup
2. **Review Architecture sections** to understand the system design
3. **Use API Reference** for endpoint documentation
4. **Check specific sections** for detailed implementation guides

## Preservation Methods

This documentation can be preserved using multiple methods:

- **Git Repository**: Add to your project's git repository
- **Export Archive**: Use the export scripts to create downloadable backups
- **Cloud Storage**: Upload to Google Drive, Dropbox, or similar
- **Documentation Site**: Convert to a website using GitHub Pages or similar

## Export Instructions

To create downloadable archives of this documentation:

```bash
# Windows
scripts\export-docs.bat

# Linux/Mac
./scripts/export-docs.sh
```

---

*This documentation was generated from Qoder IDE's Wiki Catalog feature and preserved for permanent access.*
".

Definition readme_content (stamp : string) : string :=
  readme_head +:+ stamp +:+ readme_tail.

Definition readme_path (dir : path) : path := path_join dir "README.md".

Definition create_main_readme (dir : path) : M unit :=
  now ← datetime_now;
  open_w_write (readme_path dir) (readme_content (strftime now)).

(** The body of the loop over [wiki_sections.items()]. *)
Definition write_template_if_absent (entry : string * string) : M unit :=
  let '(section_name, filename) := entry in
  let file_path := path_join docs_dir filename in
  present ← Path_exists file_path;
  if negb present then
    create_section_template file_path section_name;;
    print ("✅ Created template: " +:+ filename)
  else mret tt.

Definition create_wiki_structure : M unit :=
  Path_mkdir_exist_ok docs_dir;;
  for_each wiki_sections write_template_if_absent;;
  create_main_readme docs_dir;;
  where_ ← Path_absolute docs_dir;
  print ("
🎉 Wiki structure created in: " +:+ where_);;
  print "
Next steps:";;
  print "1. Copy content from Qoder wiki to corresponding markdown files";;
  print "2. Run the export script to create downloadable archives";;
  print "3. Add to git repository for version control".

Definition guidance : string :=
  "❌ Please run this script from your FriendFinder project root directory".

Definition main : M unit :=
  print "🚀 Qoder Wiki Extraction Tool";;
  print (str_mul "=" 40);;
  present ← Path_exists package_json;
  if negb present then print guidance
  else create_wiki_structure.

(** * Worlds a run passes through

    ** One iteration and the whole loop, as relations on worlds *)

Definition template_path (filename : string) : path :=
  path_join docs_dir filename.

Definition logged (e : event) (w : world) : world :=
  World (fs w) (cwd w) (clock w) (ticks w) (stdout w) (calls w ++ [e]).

Definition printed (s : string) (w : world) : world :=
  World (fs w) (cwd w) (clock w) (ticks w) (stdout w ++ [s]) (calls w).

Definition created_notice (filename : string) : string :=
  "✅ Created template: " +:+ filename.

(** The world after the loop body found [filename] absent and wrote it. *)
Definition after_create (section_name filename : string) (w : world) : world :=
  World
    (<[template_path filename :=
         File (template section_name (strftime (clock w (ticks w))))]>
       (fs w))
    (cwd w) (clock w) (S (ticks w))
    (stdout w ++ [created_notice filename])
    (calls w ++ [EvExists (template_path filename);
                 EvOpenW (template_path filename)]).

Inductive loop_run : list (string * string) → world → world → Prop :=
  | loop_done w :
      loop_run [] w w
  | loop_skip section_name filename l w w' :
      exists_in (fs w) (template_path filename) = true →
      loop_run l (logged (EvExists (template_path filename)) w) w' →
      loop_run ((section_name, filename) :: l) w w'
  | loop_create section_name filename l w w' :
      exists_in (fs w) (template_path filename) = false →
      loop_run l (after_create section_name filename w) w' →
      loop_run ((section_name, filename) :: l) w w'.

Arguments strftime : simpl never.
Arguments template : simpl never.
Arguments readme_content : simpl never.

(** The filesystem calls of the loop over [l], started on filesystem [m]:
    one existence check per entry, followed by one write when the check
    fails. *)
Definition template_calls (m : gmap path node) (l : list (string * string))
  : list event :=
  flat_map
    (λ entry,
       EvExists (template_path (snd entry))
       :: (if exists_in m (template_path (snd entry)) then []
           else [EvOpenW (template_path (snd entry))]))
    l.

(** ** The run as a whole *)

Definition banner : list string :=
  ["🚀 Qoder Wiki Extraction Tool"; str_mul "=" 40].

(** The world in which [main] makes its decision: banner printed and the
    manifest looked for. *)
Definition started (w : world) : world :=
  World (fs w) (cwd w) (clock w) (ticks w)
        (stdout w ++ banner) (calls w ++ [EvExists package_json]).

(** The world after [docs_dir.mkdir(exist_ok=True)] returned. *)
Definition after_mkdir (w : world) : world :=
  World
    (match fs w !! docs_dir with
     | None => <[docs_dir := Dir]> (fs w)
     | Some _ => fs w
     end)
    (cwd w) (clock w) (ticks w) (stdout w) (calls w ++ [EvMkdir docs_dir]).

Definition closing_notes (where_ : string) : list string :=
  [ "
🎉 Wiki structure created in: " +:+ where_;
    "
Next steps:";
    "1. Copy content from Qoder wiki to corresponding markdown files";
    "2. Run the export script to create downloadable archives";
    "3. Add to git repository for version control" ].

(** The world after [create_main_readme] and the closing prints. *)
Definition after_readme (w : world) : world :=
  World
    (<[readme_path docs_dir :=
         File (readme_content (strftime (clock w (ticks w))))]> (fs w))
    (cwd w) (clock w) (S (ticks w))
    (stdout w ++ closing_notes (slash_join (cwd w ++ docs_dir)))
    (calls w ++ [EvOpenW (readme_path docs_dir)]).

(** [docs] can be used as the output directory: it is absent or it is a
    directory. *)
Definition docs_usable (m : gmap path node) : bool :=
  match m !! docs_dir with
  | Some (File _) => false
  | _ => true
  end.

(** [docs/README.md] can be written: it is absent or a regular file. *)
Definition readme_writable (m : gmap path node) : bool :=
  negb (is_dir m (readme_path docs_dir)).

(** The world after [create_main_readme] found a directory in the place
    of [docs/README.md]. *)
Definition readme_refused (w : world) : world :=
  World (fs w) (cwd w) (clock w) (S (ticks w)) (stdout w)
        (calls w ++ [EvOpenW (readme_path docs_dir)]).

(** ** Reading the generated markdown

    The script only writes markdown; the functions below read it back,
    as far as the properties of the generated files need: lines,
    headings with their level, fenced code blocks, sections and link
    targets. *)

Definition newline : ascii := "010"%char.

(** [s.split(sep)] for a one-character separator. *)
Fixpoint split_on (sep : ascii) (s : string) : list string :=
  match s with
  | EmptyString => [EmptyString]
  | String c s' =>
      if Ascii.eqb c sep then EmptyString :: split_on sep s'
      else match split_on sep s' with
           | l :: ls => String c l :: ls
           | [] => [String c EmptyString]
           end
  end.

Definition lines (s : string) : list string := split_on newline s.

(** Joins the last piece of [ls] with the first piece of [rs]. *)
Fixpoint glue (ls rs : list string) : list string :=
  match ls with
  | [] => rs
  | l :: ls' =>
      match ls' with
      | [] => match rs with
              | r :: rs' => (l +:+ r) :: rs'
              | [] => [l]
              end
      | _ => l :: glue ls' rs
      end
  end.

Fixpoint all_chars (P : ascii → bool) (s : string) : bool :=
  match s with
  | EmptyString => true
  | String c s' => P c && all_chars P s'
  end.

(** Leading [#] characters of a line and what follows them. *)
Fixpoint hashes (s : string) : nat * string :=
  match s with
  | String c s' =>
      if Ascii.eqb c "#" then let (n, rest) := hashes s' in (S n, rest)
      else (0, s)
  | EmptyString => (0, s)
  end.

Definition heading_of (line : string) : option (nat * string) :=
  match hashes line with
  | (S n, String c title) =>
      if Ascii.eqb c " " then Some (S n, title) else None
  | _ => None
  end.

Inductive item : Type :=
  | Heading (level : nat) (title : string)
  | Line (text : string).

(** Lines of a document as headings and other lines; inside a fenced
    code block no line is a heading. *)
Fixpoint classify (fenced : bool) (ls : list string) : list item :=
  match ls with
  | [] => []
  | l :: ls' =>
      if String.prefix "```" l then Line l :: classify (negb fenced) ls'
      else if fenced then Line l :: classify fenced ls'
      else match heading_of l with
           | Some (n, title) => Heading n title :: classify fenced ls'
           | None => Line l :: classify fenced ls'
           end
  end.

Definition outline (s : string) : list item := classify false (lines s).

Definition headings (s : string) : list (nat * string) :=
  omap (λ i, match i with Heading n t => Some (n, t) | Line _ => None end)
       (outline s).

(** The non-blank lines below a heading of level [lvl], up to the next
    heading of that level or above. *)
Fixpoint section_body (lvl : nat) (items : list item) : list string :=
  match items with
  | [] => []
  | Heading n _ :: items' =>
      if n <=? lvl then [] else section_body lvl items'
  | Line l :: items' =>
      if String.eqb l "" then section_body lvl items'
      else l :: section_body lvl items'
  end.

Fixpoint sections_of (lvl : nat) (items : list item)
  : list (string * list string) :=
  match items with
  | [] => []
  | Heading n title :: items' =>
      if n =? lvl then (title, section_body lvl items') :: sections_of lvl items'
      else sections_of lvl items'
  | Line _ :: items' => sections_of lvl items'
  end.

Definition sections (lvl : nat) (s : string) : list (string * list string) :=
  sections_of lvl (outline s).

Fixpoint until_char (stop : ascii) (s : string) : string :=
  match s with
  | EmptyString => EmptyString
  | String c s' => if Ascii.eqb c stop then EmptyString
                   else String c (until_char stop s')
  end.

(** Targets of the inline links [[text](target)] of a text. *)
Fixpoint scan_links (s : string) : list string :=
  match s with
  | EmptyString => []
  | String c s' =>
      if Ascii.eqb c "]" then
        match s' with
        | String c' rest =>
            if Ascii.eqb c' "(" then until_char ")" rest :: scan_links s'
            else scan_links s'
        | EmptyString => []
        end
      else scan_links s'
  end.

(** The groups of an index: each level-3 section with its link targets. *)
Definition link_groups (s : string) : list (string * list string) :=
  (λ sec, (fst sec, flat_map scan_links (snd sec))) <$> sections 3 s.

(** A relative link target resolved against the directory of the file
    that holds the link. *)
Definition resolve (dir : path) (target : string) : path :=
  dir ++ filter (λ c, c ≠ "." ∧ c ≠ "") (split_on "/" target).

Definition stamp_char (c : ascii) : bool :=
  let n := nat_of_ascii c in
  ((48 <=? n) && (n <=? 57))
  || Ascii.eqb c "-" || Ascii.eqb c ":" || Ascii.eqb c " ".

Definition all_templates_present (m : gmap path node) : bool :=
  forallb (λ entry, exists_in m (template_path (snd entry))) wiki_sections.

(** ** Sample worlds *)

Definition sample_clock (n : nat) : datetime := Datetime 2025 3 7 9 5 n.

(** A project root that was never scaffolded. *)
Definition fresh_project : world :=
  World {[ package_json := File "{}" ]}
        ["home"; "dev"; "FriendFinder"] sample_clock 0 [] [].

(** A directory that is not a project root. *)
Definition outside_project : world :=
  World ∅ ["home"; "dev"] sample_clock 0 [] [].

(** The project after one run, with one template then edited by hand. *)
Definition edited_project : world :=
  let w := (main fresh_project).2 in
  set_fs (<[template_path "03-project-structure.md" := File "# My notes"]> (fs w)) w.

(** ** What the generated files read as *)

Definition catalog_paths : list path :=
  template_path ∘ snd <$> wiki_sections.

(** The files the groups of an index link to, in the order of the text. *)
Definition index_links (s : string) : list path :=
  resolve docs_dir <$> flat_map snd (link_groups s).


Definition readme_groups : list (string * list string) :=
  [ ("Getting Started",
     ["./01-getting-started.md"; "./02-technology-stack.md"]);
    ("Architecture",
     ["./03-project-structure.md"; "./04-frontend-architecture.md";
      "./05-backend-architecture.md"; "./08-component-architecture.md"]);
    ("Development",
     ["./06-api-reference.md"; "./07-realtime-communication.md";
      "./09-state-management.md"; "./10-authentication-flow.md"]);
    ("Data & Infrastructure",
     ["./11-data-models.md"; "./12-middleware.md";
      "./13-routing-navigation.md"]) ].

Definition template_headings (title : string) : list (nat * string) :=
  [ (1, title); (2, "Overview"); (2, "Table of Contents");
    (2, "Detailed Documentation") ].

Definition template_footer (stamp : string) : string :=
  "*This documentation was extracted from Qoder Wiki Catalog on "
  +:+ stamp +:+ "*".

Definition template_sections (title stamp : string)
  : list (string * list string) :=
  [ ("Overview",
     ["*[Copy the content from Qoder Wiki Catalog → "
      +:+ title +:+ " section here]*"]);
    ("Table of Contents",
     ["*[Add section table of contents here]*"]);
    ("Detailed Documentation",
     ["*[Paste the detailed documentation from Qoder here]*"; "---";
      template_footer stamp]) ].

Definition non_blank (ls : list string) : list string :=
  List.filter (λ l, negb (String.eqb l "")) ls.

Definition usage_steps : list string :=
  [ "1. **Start with Getting Started** for project setup";
    "2. **Review Architecture sections** to understand the system design";
    "3. **Use API Reference** for endpoint documentation";
    "4. **Check specific sections** for detailed implementation guides" ].

Definition export_instructions : list string :=
  [ "To create downloadable archives of this documentation:";
    "```bash";
    "# Windows";
    "scripts\export-docs.bat";
    "# Linux/Mac";
    "./scripts/export-docs.sh";
    "```";
    "---";
    "*This documentation was generated from Qoder IDE's Wiki Catalog feature and preserved for permanent access.*" ].

(** The calls of a whole run, started on filesystem [m]. *)
Definition expected_calls (m : gmap path node) : list event :=
  [EvExists package_json; EvMkdir docs_dir]
  ++ template_calls m wiki_sections
  ++ [EvOpenW (readme_path docs_dir)].

(** ** Further notions for the behaviour of a run *)

(** The entries of [l] whose file is missing from filesystem [m]. *)
Definition absent_entries (m : gmap path node) (l : list (string * string))
  : list (string * string) :=
  List.filter (λ entry, negb (exists_in m (template_path (snd entry)))) l.

(** Every path a run may create or write. *)
Definition scaffold_paths : list path :=
  docs_dir :: readme_path docs_dir :: catalog_paths.

(** A project root in which a regular file is in the way of [docs]. *)
Definition blocked_project : world :=
  World (<[docs_dir := File "notes"]> {[ package_json := File "{}" ]})
        ["home"; "dev"; "FriendFinder"] sample_clock 0 [] [].

(** A project root in which [docs/README.md] is a directory. *)
Definition readme_dir_project : world :=
  World (<[readme_path docs_dir := Dir]>
           (<[docs_dir := Dir]> {[ package_json := File "{}" ]}))
        ["home"; "dev"; "FriendFinder"] sample_clock 0 [] [].

(** A project root with [docs] partly filled: one template written by
    hand, and a directory under the name of another. *)
Definition partial_project : world :=
  World (<[template_path "02-technology-stack.md" := File "# Stack"]>
           (<[template_path "05-backend-architecture.md" := Dir]>
              (<[docs_dir := Dir]> {[ package_json := File "{}" ]})))
        ["home"; "dev"; "FriendFinder"] sample_clock 0 [] [].

(** * Proofs *)

(** ** One iteration and the loop *)

Ltac run_M :=
  cbv [mbind M_bind mret M_ret log_call print datetime_now raise
       Path_exists Path_mkdir_exist_ok open_w_write Path_absolute
       create_section_template create_main_readme];
  cbn [fs cwd clock ticks stdout calls].

Lemma parent_template_path f : parent (template_path f) = docs_dir.
Proof. reflexivity. Qed.

Lemma exists_in_lookup m (p : path) :
  p ≠ [] → exists_in m p = true ↔ is_Some (m !! p).
Proof.
  intros Hp. destruct p as [|c p]; [done|]. cbn.
  destruct (m !! (c :: p)); split; intros H; try done; by destruct H.
Qed.

Lemma exists_in_false m (p : path) :
  exists_in m p = false → m !! p = None.
Proof.
  destruct p as [|c p]; [done|]. cbn. by destruct (m !! (c :: p)).
Qed.

Lemma is_dir_exists m p : is_dir m p = true → exists_in m p = true.
Proof.
  destruct p as [|c p]; [done|]. cbn. by destruct (m !! (c :: p)) as [[]|].
Qed.

Lemma write_template_present t f w :
  exists_in (fs w) (template_path f) = true →
  write_template_if_absent (t, f) w
  = (Returned tt, logged (EvExists (template_path f)) w).
Proof.
  intros H. unfold write_template_if_absent. run_M.
  fold (template_path f). by rewrite H.
Qed.

Lemma write_template_absent t f w :
  is_dir (fs w) docs_dir = true →
  exists_in (fs w) (template_path f) = false →
  write_template_if_absent (t, f) w = (Returned tt, after_create t f w).
Proof.
  intros Hd H. unfold write_template_if_absent. run_M.
  fold (template_path f). rewrite H.
  cbn [negb fs cwd clock ticks stdout calls].
  rewrite parent_template_path, Hd.
  assert (is_dir (fs w) (template_path f) = false) as ->.
  { destruct (is_dir (fs w) (template_path f)) eqn:E; [|done].
    apply is_dir_exists in E. congruence. }
  unfold after_create, set_fs. cbn [fs cwd clock ticks stdout calls].
  by rewrite <- app_assoc.
Qed.

Lemma is_dir_after_create t f w :
  is_dir (fs w) docs_dir = true →
  is_dir (fs (after_create t f w)) docs_dir = true.
Proof.
  intros H. unfold after_create. cbn [fs]. unfold is_dir, docs_dir in *.
  rewrite lookup_insert_ne; [done|]. unfold template_path, path_join. done.
Qed.

(** The loop always runs to its end once [docs] is a directory. *)
Lemma for_each_loop_run l w :
  is_dir (fs w) docs_dir = true →
  ∃ w', for_each l write_template_if_absent w = (Returned tt, w')
        ∧ loop_run l w w'.
Proof.
  revert w. induction l as [|[t f] l IH]; intros w Hd.
  - exists w. split; [done | constructor].
  - cbn [for_each]. unfold mbind at 1, M_bind at 1.
    destruct (exists_in (fs w) (template_path f)) eqn:E.
    + rewrite write_template_present by done.
      destruct (IH (logged (EvExists (template_path f)) w)) as (w' & Hr & Hl);
        [done|].
      exists w'. split; [done|]. by eapply loop_skip.
    + rewrite write_template_absent by done.
      destruct (IH (after_create t f w)) as (w' & Hr & Hl);
        [by apply is_dir_after_create|].
      exists w'. split; [done|]. by eapply loop_create.
Qed.

(** *** What the loop changes and what it leaves alone *)

Ltac simpl_world :=
  unfold after_create, logged, printed, set_fs in *;
  cbn [fs cwd clock ticks stdout calls] in *.

Lemma template_path_inj f g : template_path f = template_path g → f = g.
Proof. unfold template_path, path_join, docs_dir. cbn. congruence. Qed.

Lemma template_path_not_docs f : template_path f ≠ docs_dir.
Proof. done. Qed.

Lemma exists_in_insert m (p q : path) x :
  exists_in m q = true → exists_in (<[p := x]> m) q = true.
Proof.
  destruct q as [|c q]; [done|]. cbn.
  destruct (decide (p = c :: q)) as [->|Hne].
  - by rewrite lookup_insert_eq.
  - by rewrite lookup_insert_ne.
Qed.

Lemma loop_run_frame l w w' :
  loop_run l w w' →
  cwd w' = cwd w ∧ clock w' = clock w
  ∧ ticks w ≤ ticks w' ≤ ticks w + length l.
Proof.
  induction 1 as [w | t f l w w' _ _ IH | t f l w w' _ _ IH].
  - cbn. repeat split; lia.
  - destruct IH as (-> & -> & ?). cbn in *. repeat split; lia.
  - destruct IH as (-> & -> & ?). cbn in *. repeat split; lia.
Qed.

(** A node that exists before the loop is the same after it. *)
Lemma loop_run_preserves l w w' (p : path) :
  loop_run l w w' →
  exists_in (fs w) p = true →
  fs w' !! p = fs w !! p.
Proof.
  induction 1 as [w | t f l w w' _ _ IH | t f l w w' Habs _ IH];
    intros Hp; [done | by apply IH |].
  rewrite IH.
  - simpl_world. apply lookup_insert_ne. intros <-. congruence.
  - simpl_world. by apply exists_in_insert.
Qed.

(** So is any path that is not a template path of the list. *)
Lemma loop_run_other l w w' (p : path) :
  loop_run l w w' →
  p ∉ (template_path ∘ snd) <$> l →
  fs w' !! p = fs w !! p.
Proof.
  induction 1 as [w | t f l w w' _ _ IH | t f l w w' _ _ IH];
    intros Hp; [done | |].
  - rewrite fmap_cons in Hp. apply not_elem_of_cons in Hp as [_ Hp].
    by rewrite IH.
  - rewrite fmap_cons in Hp. apply not_elem_of_cons in Hp as [Hne Hp].
    rewrite IH by done.
    simpl_world. apply lookup_insert_ne. intros Heq. by apply Hne.
Qed.

Lemma loop_run_exists l w w' t f :
  loop_run l w w' →
  (t, f) ∈ l →
  exists_in (fs w') (template_path f) = true.
Proof.
  induction 1 as [w | t0 f0 l w w' Hpre Hrun IH | t0 f0 l w w' _ Hrun IH];
    intros Hin.
  - by apply elem_of_nil in Hin.
  - apply elem_of_cons in Hin as [[= -> ->]|Hin]; [|by apply IH].
    apply exists_in_lookup; [done|].
    rewrite (loop_run_preserves _ _ _ _ Hrun) by done.
    by apply exists_in_lookup.
  - apply elem_of_cons in Hin as [[= -> ->]|Hin]; [|by apply IH].
    assert (exists_in (fs (after_create t0 f0 w)) (template_path f0) = true)
      as Hnow by (simpl_world; cbn; by rewrite lookup_insert_eq).
    apply exists_in_lookup; [done|].
    rewrite (loop_run_preserves _ _ _ _ Hrun) by done.
    by apply exists_in_lookup.
Qed.

(** A file the loop creates holds the template of its own section,
    stamped with a clock reading taken during the loop. *)
Lemma loop_run_created l w w' t f :
  loop_run l w w' →
  NoDup (snd <$> l) →
  (t, f) ∈ l →
  exists_in (fs w) (template_path f) = false →
  ∃ k, ticks w ≤ k < ticks w'
       ∧ fs w' !! template_path f
         = Some (File (template t (strftime (clock w k)))).
Proof.
  induction 1 as [w | t0 f0 l w w' Hpre Hrun IH | t0 f0 l w w' _ Hrun IH];
    intros Hnd Hin Habs.
  - by apply elem_of_nil in Hin.
  - rewrite fmap_cons in Hnd. apply NoDup_cons in Hnd as [Hf0 Hnd].
    apply elem_of_cons in Hin as [[= -> ->]|Hin]; [congruence|].
    by apply IH.
  - rewrite fmap_cons in Hnd. apply NoDup_cons in Hnd as [Hf0 Hnd].
    pose proof (loop_run_frame _ _ _ Hrun) as (_ & _ & Hticks & _).
    apply elem_of_cons in Hin as [[= -> ->]|Hin].
    + exists (ticks w). simpl_world. split; [lia|].
      rewrite (loop_run_preserves _ _ _ _ Hrun).
      * simpl_world. by rewrite lookup_insert_eq.
      * simpl_world. cbn. by rewrite lookup_insert_eq.
    + assert (f ≠ f0) as Hne.
      { intros ->. apply Hf0. cbn.
        apply (list_elem_of_fmap_2 snd) in Hin. exact Hin. }
      destruct IH as (k & Hk & Hfile); [done | done | |].
      * simpl_world. apply not_true_is_false. intros Hex.
        apply exists_in_lookup in Hex; [|done].
        rewrite lookup_insert_ne in Hex
          by (intros Heq; by apply template_path_inj in Heq).
        apply exists_in_false in Habs. rewrite Habs in Hex. by destruct Hex.
      * exists k. simpl_world. split; [lia|]. exact Hfile.
Qed.

Lemma template_calls_cons m t f l :
  template_calls m ((t, f) :: l)
  = EvExists (template_path f)
    :: (if exists_in m (template_path f) then []
        else [EvOpenW (template_path f)])
    ++ template_calls m l.
Proof. reflexivity. Qed.

Lemma template_calls_ext m1 m2 l :
  (∀ f, f ∈ snd <$> l →
        exists_in m1 (template_path f) = exists_in m2 (template_path f)) →
  template_calls m1 l = template_calls m2 l.
Proof.
  induction l as [|[t f] l IH]; intros H; [done|].
  rewrite !template_calls_cons, (H f) by (rewrite fmap_cons; left).
  rewrite IH; [done|]. intros g Hg. apply H. rewrite fmap_cons. by right.
Qed.

Lemma loop_run_calls l w w' :
  loop_run l w w' →
  NoDup (snd <$> l) →
  calls w' = calls w ++ template_calls (fs w) l.
Proof.
  induction 1 as [w | t f l w w' Hpre _ IH | t f l w w' Habs _ IH];
    intros Hnd.
  - cbn. by rewrite app_nil_r.
  - rewrite fmap_cons in Hnd. apply NoDup_cons in Hnd as [_ Hnd].
    rewrite IH by done. simpl_world. rewrite template_calls_cons, Hpre.
    by rewrite <- app_assoc.
  - rewrite fmap_cons in Hnd. apply NoDup_cons in Hnd as [Hf Hnd].
    rewrite IH by done. simpl_world. rewrite template_calls_cons, Habs.
    rewrite <- app_assoc. cbn [app]. do 3 f_equal.
    apply template_calls_ext. intros g Hg.
    unfold exists_in, template_path, path_join, docs_dir. cbn [app].
    rewrite lookup_insert_ne; [done|]. intros [= <-]. by apply Hf.
Qed.

Lemma main_without_manifest w :
  exists_in (fs w) package_json = false →
  main w = (Returned tt, printed guidance (started w)).
Proof.
  intros H. unfold main. run_M. rewrite H. cbn [negb]. run_M.
  unfold printed, started, banner. cbn [fs cwd clock ticks stdout calls].
  by rewrite <- !app_assoc.
Qed.

Lemma main_with_manifest w :
  exists_in (fs w) package_json = true →
  main w = create_wiki_structure (started w).
Proof.
  intros H. unfold main. run_M. rewrite H. cbn [negb].
  unfold started, banner. by rewrite <- !app_assoc.
Qed.

Lemma mkdir_docs_usable w :
  docs_usable (fs w) = true →
  Path_mkdir_exist_ok docs_dir w = (Returned tt, after_mkdir w)
  ∧ is_dir (fs (after_mkdir w)) docs_dir = true.
Proof.
  unfold docs_usable, after_mkdir. run_M. cbn [parent removelast docs_dir is_dir].
  fold docs_dir. unfold set_fs. cbn [fs cwd clock ticks stdout calls].
  destruct (fs w !! docs_dir) as [[c|]|] eqn:E; intros H; try done.
  - split; [done|]. by rewrite E.
  - split; [done|]. by rewrite lookup_insert_eq.
Qed.

Lemma mkdir_docs_unusable w :
  docs_usable (fs w) = false →
  Path_mkdir_exist_ok docs_dir w
  = (Raised (FileExistsError docs_dir), logged (EvMkdir docs_dir) w).
Proof.
  unfold docs_usable. run_M. cbn [parent removelast docs_dir is_dir].
  fold docs_dir. by destruct (fs w !! docs_dir) as [[c|]|] eqn:E.
Qed.

Lemma readme_not_template :
  readme_path docs_dir ∉ (template_path ∘ snd) <$> wiki_sections.
Proof. apply (bool_decide_unpack _). by vm_compute. Qed.

Lemma wiki_sections_filenames_NoDup : NoDup (snd <$> wiki_sections).
Proof. apply (bool_decide_unpack _). by vm_compute. Qed.

Lemma after_mkdir_lookup w (p : path) :
  p ≠ docs_dir → fs (after_mkdir w) !! p = fs w !! p.
Proof.
  intros Hp. unfold after_mkdir. cbn [fs].
  destruct (fs w !! docs_dir); [done|]. by rewrite lookup_insert_ne.
Qed.

Lemma after_mkdir_preserves w (p : path) :
  exists_in (fs w) p = true → fs (after_mkdir w) !! p = fs w !! p.
Proof.
  intros Hp. unfold after_mkdir. cbn [fs].
  destruct (fs w !! docs_dir) eqn:E; [done|].
  apply lookup_insert_ne. intros <-. cbn in Hp. by rewrite E in Hp.
Qed.

Lemma readme_is_dir_after_loop w w2 :
  loop_run wiki_sections (after_mkdir w) w2 →
  is_dir (fs w2) (readme_path docs_dir) = is_dir (fs w) (readme_path docs_dir).
Proof.
  intros Hrun. unfold is_dir, readme_path, path_join, docs_dir. cbn [app].
  rewrite (loop_run_other _ _ _ _ Hrun) by apply readme_not_template.
  by rewrite after_mkdir_lookup.
Qed.

Lemma docs_is_dir_after_loop l w1 w2 :
  loop_run l w1 w2 →
  is_dir (fs w1) docs_dir = true → is_dir (fs w2) docs_dir = true.
Proof.
  intros Hrun Hd. unfold is_dir, docs_dir in *.
  rewrite (loop_run_preserves _ _ _ _ Hrun); [done|].
  cbn. by destruct (fs w1 !! ["docs"]).
Qed.

Lemma absolute_docs (c : path) :
  match c ++ docs_dir with [] => "/" | q => slash_join q end
  = slash_join (c ++ docs_dir).
Proof. by destruct c. Qed.

(** The three ways [create_wiki_structure] can end. *)
Lemma create_wiki_structure_returns w :
  docs_usable (fs w) = true →
  readme_writable (fs w) = true →
  ∃ w2, loop_run wiki_sections (after_mkdir w) w2
        ∧ create_wiki_structure w = (Returned tt, after_readme w2).
Proof.
  intros Hd Hr. destruct (mkdir_docs_usable w Hd) as [Hmk Hdir].
  destruct (for_each_loop_run wiki_sections _ Hdir) as (w2 & Hloop & Hrun).
  exists w2. split; [done|].
  unfold create_wiki_structure. unfold mbind at 1, M_bind at 1. rewrite Hmk.
  unfold mbind at 1, M_bind at 1. rewrite Hloop.
  run_M. change (parent (readme_path docs_dir)) with docs_dir.
  rewrite (docs_is_dir_after_loop _ _ _ Hrun Hdir).
  rewrite (readme_is_dir_after_loop _ _ Hrun).
  unfold readme_writable in Hr. apply negb_true_iff in Hr. rewrite Hr.
  unfold set_fs, after_readme, closing_notes.
  cbn [fs cwd clock ticks stdout calls].
  rewrite absolute_docs. by rewrite <- !app_assoc.
Qed.

Lemma create_wiki_structure_readme_dir w :
  docs_usable (fs w) = true →
  readme_writable (fs w) = false →
  ∃ w2, loop_run wiki_sections (after_mkdir w) w2
        ∧ create_wiki_structure w
          = (Raised (IsADirectoryError (readme_path docs_dir)),
             readme_refused w2).
Proof.
  intros Hd Hr. destruct (mkdir_docs_usable w Hd) as [Hmk Hdir].
  destruct (for_each_loop_run wiki_sections _ Hdir) as (w2 & Hloop & Hrun).
  exists w2. split; [done|].
  unfold create_wiki_structure. unfold mbind at 1, M_bind at 1. rewrite Hmk.
  unfold mbind at 1, M_bind at 1. rewrite Hloop.
  run_M. change (parent (readme_path docs_dir)) with docs_dir.
  rewrite (docs_is_dir_after_loop _ _ _ Hrun Hdir).
  rewrite (readme_is_dir_after_loop _ _ Hrun).
  unfold readme_writable in Hr. apply negb_false_iff in Hr. by rewrite Hr.
Qed.

Lemma create_wiki_structure_docs_file w :
  docs_usable (fs w) = false →
  create_wiki_structure w
  = (Raised (FileExistsError docs_dir), logged (EvMkdir docs_dir) w).
Proof.
  intros Hd. unfold create_wiki_structure. unfold mbind at 1, M_bind at 1.
  by rewrite mkdir_docs_unusable.
Qed.

(** *** Splitting and scanning around an interpolated text *)

Lemma append_nil_l (b : string) : "" +:+ b = b.
Proof. reflexivity. Qed.

Lemma append_cons c (a b : string) : String c a +:+ b = String c (a +:+ b).
Proof. reflexivity. Qed.

Lemma append_assoc (a b c : string) : (a +:+ b) +:+ c = a +:+ b +:+ c.
Proof.
  induction a as [|x a IH]; [done|]. rewrite !append_cons. by rewrite IH.
Qed.

Lemma split_on_nonempty sep s : split_on sep s ≠ [].
Proof.
  destruct s as [|c s]; cbn; [done|].
  destruct (Ascii.eqb c sep); [done|]. by destruct (split_on sep s).
Qed.

Lemma glue_cons l ls rs : ls ≠ [] → glue (l :: ls) rs = l :: glue ls rs.
Proof. by destruct ls. Qed.

Lemma glue_nonempty ls rs : ls ≠ [] → glue ls rs ≠ [].
Proof.
  destruct ls as [|l [|l' ls]]; intros H; [done | | done].
  cbn. by destruct rs.
Qed.

Lemma split_on_app sep a b :
  split_on sep (a +:+ b) = glue (split_on sep a) (split_on sep b).
Proof.
  induction a as [|c a IH].
  - rewrite append_nil_l. cbn. pose proof (split_on_nonempty sep b).
    by destruct (split_on sep b).
  - rewrite append_cons. cbn [split_on]. rewrite IH.
    pose proof (split_on_nonempty sep a) as Ha.
    destruct (Ascii.eqb c sep).
    + by rewrite glue_cons.
    + destruct (split_on sep a) as [|l [|l' ls]]; [done | |].
      * cbn. pose proof (split_on_nonempty sep b).
        by destruct (split_on sep b).
      * done.
Qed.

Lemma split_on_clean sep s :
  all_chars (λ c, negb (Ascii.eqb c sep)) s = true → split_on sep s = [s].
Proof.
  induction s as [|c s IH]; cbn; [done|].
  intros [Hc Hs]%andb_true_iff. apply negb_true_iff in Hc.
  by rewrite Hc, IH.
Qed.

Lemma all_chars_app P a b :
  all_chars P (a +:+ b) = all_chars P a && all_chars P b.
Proof.
  induction a as [|c a IH]; [done|].
  rewrite append_cons. cbn [all_chars]. by rewrite IH, andb_assoc.
Qed.

Lemma all_chars_weaken (P Q : ascii → bool) s :
  (∀ c, P c = true → Q c = true) →
  all_chars P s = true → all_chars Q s = true.
Proof.
  intros HPQ. induction s as [|c s IH]; cbn; [done|].
  intros [Hc Hs]%andb_true_iff. by rewrite (HPQ c Hc), IH.
Qed.

Lemma scan_links_clean_app a s :
  all_chars (λ c, negb (Ascii.eqb c "]")) a = true →
  scan_links (a +:+ s) = scan_links s.
Proof.
  induction a as [|c a IH]; [done|].
  rewrite append_cons. cbn [all_chars scan_links].
  intros [Hc Ha]%andb_true_iff. apply negb_true_iff in Hc.
  by rewrite Hc, IH.
Qed.

(** *** The characters of a timestamp *)

Lemma stamp_char_digit k : k < 10 → stamp_char (digit_char k) = true.
Proof.
  intros Hk. do 10 (destruct k as [|k]; [done|]). lia.
Qed.

Lemma dec_digits_chars fuel n acc :
  all_chars stamp_char acc = true →
  all_chars stamp_char (dec_digits fuel n acc) = true.
Proof.
  revert n acc. induction fuel as [|fuel IH]; intros n acc Hacc; [done|].
  cbn [dec_digits].
  assert (all_chars stamp_char (String (digit_char (n mod 10)) acc) = true)
    as Hstep.
  { cbn [all_chars]. rewrite Hacc, stamp_char_digit; [done|].
    apply Nat.mod_upper_bound. lia. }
  destruct (n / 10 =? 0); [done|]. by apply IH.
Qed.

Lemma str_mul_zero_chars n : all_chars stamp_char (str_mul "0" n) = true.
Proof. induction n as [|n IH]; [done|]. exact IH. Qed.

Lemma zero_pad_chars width n :
  all_chars stamp_char (zero_pad width (show_nat n)) = true.
Proof.
  unfold zero_pad, show_nat.
  rewrite all_chars_app, str_mul_zero_chars. by apply dec_digits_chars.
Qed.

Lemma strftime_chars d : all_chars stamp_char (strftime d) = true.
Proof.
  unfold strftime.
  repeat (rewrite all_chars_app; apply andb_true_iff; split);
    done || apply zero_pad_chars.
Qed.

Lemma stamp_char_not c x :
  stamp_char x = false → stamp_char c = true → negb (Ascii.eqb c x) = true.
Proof.
  intros Hx Hc. apply negb_true_iff, Ascii.eqb_neq. intros ->. congruence.
Qed.

Lemma strftime_one_line d : lines (strftime d) = [strftime d].
Proof.
  apply split_on_clean.
  eapply all_chars_weaken; [|apply strftime_chars].
  intros c. by apply stamp_char_not.
Qed.

Lemma strftime_no_bracket d :
  all_chars (λ c, negb (Ascii.eqb c "]")) (strftime d) = true.
Proof.
  eapply all_chars_weaken; [|apply strftime_chars].
  intros c. by apply stamp_char_not.
Qed.

Lemma lines_readme_content d :
  lines (readme_content (strftime d))
  = glue (lines readme_head) (glue [strftime d] (lines readme_tail)).
Proof.
  unfold readme_content, lines. rewrite !split_on_app.
  change (split_on newline (strftime d)) with (lines (strftime d)).
  by rewrite strftime_one_line.
Qed.

Lemma scan_links_readme_content d :
  scan_links (readme_content (strftime d)) = scan_links readme_tail.
Proof.
  unfold readme_content.
  rewrite scan_links_clean_app by (by vm_compute).
  apply scan_links_clean_app, strftime_no_bracket.
Qed.

Lemma lines_section_template t d :
  lines (template t (strftime d))
  = glue (lines ("# " +:+ t +:+ "

## Overview

*[Copy the content from Qoder Wiki Catalog → " +:+ t +:+ " section here]*

## Table of Contents

*[Add section table of contents here]*

## Detailed Documentation

*[Paste the detailed documentation from Qoder here]*

---

*This documentation was extracted from Qoder Wiki Catalog on "))
      (glue [strftime d] (lines "*
")).
Proof.
  rewrite <- (strftime_one_line d). unfold lines.
  rewrite <- !split_on_app. f_equal.
  unfold template. by rewrite !append_assoc.
Qed.

(** ** Outcomes of [main] *)

Lemma main_docs_file w :
  exists_in (fs w) package_json = true →
  docs_usable (fs w) = false →
  main w = (Raised (FileExistsError docs_dir),
            logged (EvMkdir docs_dir) (started w)).
Proof.
  intros Hm Hd. rewrite main_with_manifest by done.
  by apply create_wiki_structure_docs_file.
Qed.

Lemma main_after_loop w :
  exists_in (fs w) package_json = true →
  docs_usable (fs w) = true →
  ∃ w2, loop_run wiki_sections (after_mkdir (started w)) w2
        ∧ (readme_writable (fs w) = true
           ∧ main w = (Returned tt, after_readme w2)
           ∨ readme_writable (fs w) = false
             ∧ main w = (Raised (IsADirectoryError (readme_path docs_dir)),
                         readme_refused w2)).
Proof.
  intros Hm Hd. rewrite main_with_manifest by done.
  destruct (readme_writable (fs w)) eqn:Hr.
  - destruct (create_wiki_structure_returns (started w)) as (w2 & Hrun & Hres);
      [done | done |].
    exists w2. split; [done|]. by left.
  - destruct (create_wiki_structure_readme_dir (started w))
      as (w2 & Hrun & Hres); [done | done |].
    exists w2. split; [done|]. by right.
Qed.

Lemma main_returns w :
  exists_in (fs w) package_json = true →
  docs_usable (fs w) = true →
  readme_writable (fs w) = true →
  ∃ w2, loop_run wiki_sections (after_mkdir (started w)) w2
        ∧ main w = (Returned tt, after_readme w2).
Proof.
  intros Hm Hd Hr.
  destruct (main_after_loop w Hm Hd) as (w2 & Hrun & [[_ Hres]|[Hr' _]]);
    [by exists w2 | congruence].
Qed.

(** With the manifest in place, the run returns exactly when [docs] is
    usable and the index is writable. *)
Lemma main_returns_iff w :
  exists_in (fs w) package_json = true →
  (∃ w', main w = (Returned tt, w'))
  ↔ docs_usable (fs w) = true ∧ readme_writable (fs w) = true.
Proof.
  intros Hm. split.
  - intros [w' Hres]. destruct (docs_usable (fs w)) eqn:Hd.
    + destruct (main_after_loop w Hm Hd) as (w2 & _ & [[Hr _]|[_ Hres']]);
        [done | congruence].
    + rewrite main_docs_file in Hres by done. congruence.
  - intros [Hd Hr]. destruct (main_returns w Hm Hd Hr) as (w2 & _ & Hres).
    by exists (after_readme w2).
Qed.

(** Whatever the outcome, a node that exists before the run, other than
    the index, is the same after it. *)
Lemma main_preserves_existing w (p : path) :
  exists_in (fs w) p = true →
  p ≠ readme_path docs_dir →
  fs (main w).2 !! p = fs w !! p.
Proof.
  intros Hp Hne.
  destruct (exists_in (fs w) package_json) eqn:Hm;
    [|by rewrite main_without_manifest].
  destruct (docs_usable (fs w)) eqn:Hd; [|by rewrite main_docs_file].
  destruct (main_after_loop w Hm Hd) as (w2 & Hrun & Hres).
  assert (fs w2 !! p = fs w !! p) as Hloop.
  { rewrite (loop_run_preserves _ _ _ _ Hrun).
    - by rewrite after_mkdir_preserves.
    - destruct p as [|c p]; [done|]. cbn [exists_in].
      rewrite after_mkdir_preserves by done. exact Hp. }
  destruct Hres as [[_ ->]|[_ ->]]; cbn [snd].
  - unfold after_readme. cbn [fs]. by rewrite lookup_insert_ne.
  - done.
Qed.

Lemma template_path_not_readme f :
  f ∈ snd <$> wiki_sections → template_path f ≠ readme_path docs_dir.
Proof.
  intros Hf Heq. apply readme_not_template. rewrite <- Heq.
  rewrite list_fmap_compose. by apply list_elem_of_fmap_2.
Qed.

Lemma all_templates_present_spec m :
  all_templates_present m = true
  ↔ ∀ t f, (t, f) ∈ wiki_sections → exists_in m (template_path f) = true.
Proof.
  unfold all_templates_present. rewrite forallb_forall. split.
  - intros H t f Hin. by apply (H (t, f)), list_elem_of_In.
  - intros H [t f] Hin. by apply (H t f), list_elem_of_In.
Qed.

(** After a run that got past [mkdir], every template path exists. *)
Lemma templates_exist_after_loop w w2 t f :
  loop_run wiki_sections (after_mkdir (started w)) w2 →
  (t, f) ∈ wiki_sections →
  exists_in (fs w2) (template_path f) = true.
Proof. intros Hrun Hin. by eapply loop_run_exists. Qed.

(** ** Properties of a run *)

(** C1. In a run with [package.json] present and all thirteen template
    files already there, every template file is the same after the run as
    before it, whatever its content and however the run ends: the loop
    writes only where nothing exists. *)
Theorem existing_templates_untouched (w : world) :
  exists_in (fs w) package_json = true →
  all_templates_present (fs w) = true →
  ∀ t f, (t, f) ∈ wiki_sections →
         fs (main w).2 !! template_path f = fs w !! template_path f.
Proof.
  intros _ Hall t f Hin. apply main_preserves_existing.
  - by apply (all_templates_present_spec (fs w)) with t.
  - apply template_path_not_readme. by apply (list_elem_of_fmap_2 snd) in Hin.
Qed.

Lemma existing_templates_untouched_edited :
  Forall (λ entry, fs (main edited_project).2 !! template_path entry.2
                   = fs edited_project !! template_path entry.2)
         wiki_sections
  ∧ fs edited_project !! template_path "03-project-structure.md"
    = Some (File "# My notes").
Proof.
  split; [|reflexivity]. apply Forall_forall. intros [t f] Hin.
  refine (existing_templates_untouched edited_project _ _ t f Hin);
    vm_compute; reflexivity.
Defined.

(** Two runs in succession: the second leaves every template file as the
    first left it. *)
Lemma second_run_keeps_templates w w1 :
  exists_in (fs w) package_json = true →
  main w = (Returned tt, w1) →
  ∀ t f, (t, f) ∈ wiki_sections →
         fs (main w1).2 !! template_path f = fs w1 !! template_path f.
Proof.
  intros Hm Hres t f Hin.
  assert (docs_usable (fs w) = true ∧ readme_writable (fs w) = true)
    as [Hd Hr] by (apply main_returns_iff; eauto).
  destruct (main_returns w Hm Hd Hr) as (w2 & Hrun & Hres').
  rewrite Hres in Hres'. injection Hres' as ->.
  apply main_preserves_existing.
  - unfold after_readme. cbn [fs]. apply exists_in_insert.
    by eapply templates_exist_after_loop.
  - apply template_path_not_readme. by apply (list_elem_of_fmap_2 snd) in Hin.
Qed.

(** A template edited by hand keeps the edit through the next run,
    whatever the state [w1] the earlier runs left. *)
Lemma edited_template_survives w1 t f (text : string) :
  (t, f) ∈ wiki_sections →
  fs (main (set_fs (<[template_path f := File text]> (fs w1)) w1)).2
    !! template_path f
  = Some (File text).
Proof.
  intros Hin. rewrite main_preserves_existing.
  - unfold set_fs. cbn [fs]. by rewrite lookup_insert_eq.
  - unfold set_fs. cbn [fs]. apply exists_in_lookup; [done|].
    by rewrite lookup_insert_eq.
  - apply template_path_not_readme. by apply (list_elem_of_fmap_2 snd) in Hin.
Qed.

(** C2. Without [package.json] the run returns normally after printing
    the banner and the guidance message; the filesystem is unchanged and
    the only call made into it is the look-up of the manifest. *)
Theorem no_manifest_no_mutation (w : world) :
  exists_in (fs w) package_json = false →
  ∃ w', main w = (Returned tt, w')
        ∧ fs w' = fs w
        ∧ calls w' = calls w ++ [EvExists package_json]
        ∧ stdout w' = stdout w ++ banner ++ [guidance]
        ∧ ticks w' = ticks w.
Proof.
  intros Hm. exists (printed guidance (started w)).
  split; [by apply main_without_manifest|].
  unfold printed, started. cbn [fs cwd clock ticks stdout calls].
  by rewrite <- app_assoc.
Qed.

Lemma no_manifest_no_mutation_outside :
  ∃ w', main outside_project = (Returned tt, w')
        ∧ fs w' = fs outside_project
        ∧ calls w' = calls outside_project ++ [EvExists package_json]
        ∧ stdout w' = stdout outside_project ++ banner ++ [guidance]
        ∧ ticks w' = ticks outside_project.
Proof.
  apply (no_manifest_no_mutation outside_project). reflexivity.
Defined.

(** C3. A run with [package.json] present returns whenever [docs] is
    not a regular file and [docs/README.md] is not a directory, and then
    each of the thirteen catalog filenames exists under [docs/]; it is a
    regular file unless a directory of that name was there before. *)
Theorem every_template_exists_after_run (w : world) :
  exists_in (fs w) package_json = true →
  docs_usable (fs w) = true →
  readme_writable (fs w) = true →
  ∃ w', main w = (Returned tt, w')
        ∧ ∀ t f, (t, f) ∈ wiki_sections →
            exists_in (fs w') (template_path f) = true
            ∧ (is_dir (fs w) (template_path f) = false →
               ∃ content, fs w' !! template_path f = Some (File content)).
Proof.
  intros Hm Hd Hr. destruct (main_returns w Hm Hd Hr) as (w2 & Hrun & Hres).
  exists (after_readme w2). split; [done|]. intros t f Hin.
  assert (template_path f ≠ readme_path docs_dir) as Hne
    by (apply template_path_not_readme;
        by apply (list_elem_of_fmap_2 snd) in Hin).
  split.
  - unfold after_readme. cbn [fs]. apply exists_in_insert.
    by eapply templates_exist_after_loop.
  - intros Hnd. unfold after_readme. cbn [fs].
    rewrite lookup_insert_ne by done.
    destruct (exists_in (fs (after_mkdir (started w))) (template_path f))
      eqn:Hex.
    + rewrite (loop_run_preserves _ _ _ _ Hrun) by done.
      rewrite after_mkdir_lookup by apply template_path_not_docs.
      unfold started. cbn [fs].
      apply exists_in_lookup in Hex; [|done].
      rewrite after_mkdir_lookup in Hex by apply template_path_not_docs.
      unfold started in Hex. cbn [fs] in Hex.
      change (template_path f) with ["docs"; f] in *. cbn [is_dir] in Hnd.
      destruct Hex as [[c|] Hex]; rewrite Hex in *; [by exists c | done].
    + destruct (loop_run_created _ _ _ t f Hrun) as (k & _ & Hfile);
        [apply wiki_sections_filenames_NoDup | done | done |].
      eauto.
Qed.

Lemma every_template_exists_after_run_fresh :
  ∃ w', main fresh_project = (Returned tt, w')
        ∧ ∀ t f, (t, f) ∈ wiki_sections →
            exists_in (fs w') (template_path f) = true
            ∧ (is_dir (fs fresh_project) (template_path f) = false →
               ∃ content, fs w' !! template_path f = Some (File content)).
Proof.
  apply (every_template_exists_after_run fresh_project); reflexivity.
Defined.

(** C4. A run with [package.json] present that returns has written
    [docs/README.md] anew, whatever was there: the file holds the index
    text built around the last clock reading of this run, and the third
    line of that text shows the reading. *)
Theorem readme_regenerated (w : world) :
  exists_in (fs w) package_json = true →
  docs_usable (fs w) = true →
  readme_writable (fs w) = true →
  ∃ w', main w = (Returned tt, w')
        ∧ ticks w < ticks w'
        ∧ let stamp := strftime (clock w (ticks w' - 1)) in
          fs w' !! readme_path docs_dir = Some (File (readme_content stamp))
          ∧ lines (readme_content stamp) !! 2
            = Some ("*Extracted from Qoder Wiki Catalog on " +:+ stamp +:+ "*").
Proof.
  intros Hm Hd Hr. destruct (main_returns w Hm Hd Hr) as (w2 & Hrun & Hres).
  exists (after_readme w2). split; [done|].
  destruct (loop_run_frame _ _ _ Hrun) as (_ & Hclock & Hticks & _).
  unfold after_readme. cbn [fs ticks].
  unfold after_mkdir, started in Hclock, Hticks. cbn [clock ticks] in *.
  split; [lia|]. cbn zeta.
  replace (S (ticks w2) - 1) with (ticks w2) by lia. rewrite <- Hclock.
  split; [by rewrite lookup_insert_eq|].
  rewrite lines_readme_content.
  generalize (strftime (clock w2 (ticks w2))). intros stamp.
  vm_compute. reflexivity.
Qed.

Lemma readme_regenerated_fresh :
  ∃ w', main fresh_project = (Returned tt, w')
        ∧ ticks fresh_project < ticks w'
        ∧ let stamp := strftime (clock fresh_project (ticks w' - 1)) in
          fs w' !! readme_path docs_dir = Some (File (readme_content stamp))
          ∧ lines (readme_content stamp) !! 2
            = Some ("*Extracted from Qoder Wiki Catalog on " +:+ stamp +:+ "*").
Proof.
  apply (readme_regenerated fresh_project); reflexivity.
Defined.

(** *** The index and the catalog *)

Lemma link_groups_readme d :
  link_groups (readme_content (strftime d)) = readme_groups.
Proof.
  unfold link_groups, sections, outline. rewrite lines_readme_content.
  generalize (strftime d). intros stamp. vm_compute. reflexivity.
Qed.

Lemma headings_readme d :
  headings (readme_content (strftime d))
  = [ (1, "FriendFinder Documentation");
      (2, "Documentation Sections");
      (3, "Getting Started"); (3, "Architecture");
      (3, "Development"); (3, "Data & Infrastructure");
      (2, "How to Use This Documentation");
      (2, "Preservation Methods");
      (2, "Export Instructions") ].
Proof.
  unfold headings, outline. rewrite lines_readme_content.
  generalize (strftime d). intros stamp. vm_compute. reflexivity.
Qed.




(** *** The text of a template *)

Lemma catalog_template_text t f d :
  (t, f) ∈ wiki_sections →
  headings (template t (strftime d)) = template_headings t
  ∧ sections 2 (template t (strftime d))
    = template_sections t (strftime d)
  ∧ last (non_blank (lines (template t (strftime d))))
    = Some (template_footer (strftime d)).
Proof.
  intros Hin. unfold headings, sections, outline.
  rewrite lines_section_template.
  generalize (strftime d). intros stamp.
  repeat (apply elem_of_cons in Hin as [[= -> ->]|Hin];
          [by vm_compute|]).
  by apply elem_of_nil in Hin.
Qed.

(** C6. When a run with [package.json] present gets past the creation
    of [docs] and finds a catalog file absent, the file it creates there
    holds: the section title as level-1 heading; the level-2 sections
    "Overview", "Table of Contents" and "Detailed Documentation", each
    with its placeholder; and, closing the text, the footer with a clock
    reading taken during the run. *)
Theorem created_template_text (w : world) (t f : string) :
  exists_in (fs w) package_json = true →
  docs_usable (fs w) = true →
  (t, f) ∈ wiki_sections →
  exists_in (fs w) (template_path f) = false →
  ∃ k, ticks w ≤ k < ticks (main w).2
       ∧ let stamp := strftime (clock w k) in
         let content := template t stamp in
         fs (main w).2 !! template_path f = Some (File content)
         ∧ headings content = template_headings t
         ∧ sections 2 content = template_sections t stamp
         ∧ last (non_blank (lines content)) = Some (template_footer stamp).
Proof.
  intros Hm Hd Hin Habs.
  destruct (main_after_loop w Hm Hd) as (w2 & Hrun & Hres).
  destruct (loop_run_created _ _ _ t f Hrun) as (k & Hk & Hfile);
    [apply wiki_sections_filenames_NoDup | done | |].
  { apply not_true_is_false. intros Hex.
    apply exists_in_lookup in Hex; [|done].
    rewrite after_mkdir_lookup in Hex by apply template_path_not_docs.
    apply exists_in_false in Habs. unfold started in Hex. cbn [fs] in Hex.
    rewrite Habs in Hex. by destruct Hex. }
  unfold after_mkdir, started in Hk, Hfile. cbn [clock ticks] in Hk, Hfile.
  assert (template_path f ≠ readme_path docs_dir) as Hne
    by (apply template_path_not_readme;
        by apply (list_elem_of_fmap_2 snd) in Hin).
  exists k. cbn zeta.
  destruct (catalog_template_text t f (clock w k) Hin) as (Hh & Hs & Hl).
  assert (ticks (main w).2 = S (ticks w2)
          ∧ fs (main w).2 !! template_path f = fs w2 !! template_path f)
    as [-> ->].
  { destruct Hres as [[_ ->]|[_ ->]]; cbn [snd]; (split; [done|]).
    - unfold after_readme. cbn [fs]. by rewrite lookup_insert_ne.
    - done. }
  split; [lia|]. done.
Qed.

Lemma created_template_text_fresh :
  ∃ k, ticks fresh_project ≤ k < ticks (main fresh_project).2
       ∧ let stamp := strftime (clock fresh_project k) in
         let content := template "Authentication Flow" stamp in
         fs (main fresh_project).2 !! template_path "10-authentication-flow.md"
         = Some (File content)
         ∧ headings content = template_headings "Authentication Flow"
         ∧ sections 2 content = template_sections "Authentication Flow" stamp
         ∧ last (non_blank (lines content)) = Some (template_footer stamp).
Proof.
  apply (created_template_text fresh_project
           "Authentication Flow" "10-authentication-flow.md");
    [reflexivity | reflexivity | | reflexivity].
  do 9 apply list_elem_of_further. apply list_elem_of_here.
Defined.

(** *** The text of the index *)

Lemma sections_readme d :
  sections 2 (readme_content (strftime d)) !! 1
  = Some ("How to Use This Documentation", usage_steps)
  ∧ sections 2 (readme_content (strftime d)) !! 3
    = Some ("Export Instructions", export_instructions).
Proof.
  unfold sections, outline. rewrite lines_readme_content.
  generalize (strftime d). intros stamp. by vm_compute.
Qed.

Lemma stamp_line_readme d :
  lines (readme_content (strftime d)) !! 2
  = Some ("*Extracted from Qoder Wiki Catalog on " +:+ strftime d +:+ "*").
Proof.
  rewrite lines_readme_content.
  generalize (strftime d). intros stamp. by vm_compute.
Qed.

(** The f-string of [create_main_readme], read back for any moment. *)
Lemma readme_text (d : datetime) :
  let text := readme_content (strftime d) in
  headings text
  = [ (1, "FriendFinder Documentation");
      (2, "Documentation Sections");
      (3, "Getting Started"); (3, "Architecture");
      (3, "Development"); (3, "Data & Infrastructure");
      (2, "How to Use This Documentation");
      (2, "Preservation Methods");
      (2, "Export Instructions") ]
  ∧ lines text !! 2
    = Some ("*Extracted from Qoder Wiki Catalog on " +:+ strftime d +:+ "*")
  ∧ fst <$> link_groups text
    = ["Getting Started"; "Architecture"; "Development";
       "Data & Infrastructure"]
  ∧ index_links text ≡ₚ catalog_paths
  ∧ sections 2 text !! 1
    = Some ("How to Use This Documentation", usage_steps)
  ∧ ∃ body, sections 2 text !! 3 = Some ("Export Instructions", body)
            ∧ ["scripts"; "export-docs.bat"] ∈ split_on "\" <$> body
            ∧ ["scripts"; "export-docs.sh"] ∈ resolve [] <$> body.
Proof.
  cbn zeta. destruct (sections_readme d) as [Husage Hexport].
  split; [apply headings_readme|].
  split; [apply stamp_line_readme|].
  unfold index_links. rewrite link_groups_readme.
  split; [done|]. split.
  { vm_compute. do 5 apply perm_skip.
    etrans; [apply perm_swap|]. apply perm_skip, perm_swap. }
  split; [done|].
  exists export_instructions. split; [done|].
  split; apply (bool_decide_unpack _); by vm_compute.
Qed.

(** The link targets of the f-string of [create_main_readme], for any
    moment. *)
Lemma readme_links_exactly_catalog (d : datetime) :
  let targets := scan_links (readme_content (strftime d)) in
  targets ≡ₚ (λ entry, "./" +:+ entry.2) <$> wiki_sections
  ∧ resolve docs_dir <$> targets ≡ₚ catalog_paths
  ∧ NoDup (resolve docs_dir <$> targets).
Proof.
  cbn zeta. rewrite scan_links_readme_content. split; [|split].
  - vm_compute. do 5 apply perm_skip.
    etrans; [apply perm_swap|]. apply perm_skip, perm_swap.
  - vm_compute. do 5 apply perm_skip.
    etrans; [apply perm_swap|]. apply perm_skip, perm_swap.
  - apply (bool_decide_unpack _). by vm_compute.
Qed.

(** C9. The catalog has thirteen entries with pairwise distinct
    filenames, hence pairwise distinct paths under [docs/]; its titles
    are distinct too, so the dictionary literal loses no entry.  The
    catalog is a constant of the script and no part of the world a run
    transforms, so this holds before and after every operation. *)
Theorem catalog_filenames_unique :
  length wiki_sections = 13
  ∧ NoDup (snd <$> wiki_sections)
  ∧ NoDup (fst <$> wiki_sections)
  ∧ NoDup catalog_paths.
Proof.
  split; [done|]. repeat split; apply (bool_decide_unpack _); by vm_compute.
Qed.

(** *** The order of the calls into the filesystem *)

Lemma calls_after_loop w w2 :
  loop_run wiki_sections (after_mkdir (started w)) w2 →
  calls w2
  = calls w ++ [EvExists package_json; EvMkdir docs_dir]
    ++ template_calls (fs w) wiki_sections.
Proof.
  intros Hrun.
  rewrite (loop_run_calls _ _ _ Hrun) by apply wiki_sections_filenames_NoDup.
  assert (calls (after_mkdir (started w))
          = calls w ++ [EvExists package_json; EvMkdir docs_dir]) as ->
    by (unfold after_mkdir, started; cbn [calls]; by rewrite <- app_assoc).
  rewrite <- app_assoc. do 2 f_equal.
  apply template_calls_ext. intros f _.
  change (template_path f) with ["docs"; f]. cbn [exists_in].
  by rewrite after_mkdir_lookup.
Qed.

(** C8. In a run with [package.json] present, the calls into the
    filesystem after the look-up of the manifest are, in this order: the
    creation of [docs]; for each catalog entry in catalog order, the
    existence check of its file followed by one write exactly when the
    file was absent; the write of the index.  A run that returns makes
    all of them, and a run that stops on an exception has made an initial
    part of them. *)
Theorem calls_in_order (w : world) :
  exists_in (fs w) package_json = true →
  calls (main w).2 `prefix_of` calls w ++ expected_calls (fs w)
  ∧ (docs_usable (fs w) = true →
     readme_writable (fs w) = true →
     ∃ w', main w = (Returned tt, w')
           ∧ calls w' = calls w ++ expected_calls (fs w)).
Proof.
  intros Hm. unfold expected_calls.
  destruct (docs_usable (fs w)) eqn:Hd.
  - destruct (main_after_loop w Hm Hd) as (w2 & Hrun & Hres).
    pose proof (calls_after_loop w w2 Hrun) as Hcalls.
    assert (calls (main w).2
            = calls w ++ [EvExists package_json; EvMkdir docs_dir]
              ++ template_calls (fs w) wiki_sections
              ++ [EvOpenW (readme_path docs_dir)]) as Hall.
    { destruct Hres as [[_ ->]|[_ ->]]; cbn [snd];
        unfold after_readme, readme_refused; cbn [calls];
        rewrite Hcalls; by rewrite <- !app_assoc. }
    split; [by rewrite Hall|]. intros _ Hr.
    destruct Hres as [[_ Hres]|[Hr' _]]; [|congruence].
    exists (after_readme w2). split; [done|]. by rewrite Hres in Hall.
  - split; [|done]. rewrite main_docs_file by done.
    unfold logged, started. cbn [snd calls].
    rewrite <- app_assoc. apply prefix_app, prefix_cons, prefix_cons.
    apply prefix_nil.
Qed.

Lemma calls_in_order_fresh :
  calls (main fresh_project).2
    `prefix_of` calls fresh_project ++ expected_calls (fs fresh_project)
  ∧ ∃ w', main fresh_project = (Returned tt, w')
          ∧ calls w' = calls fresh_project ++ expected_calls (fs fresh_project).
Proof.
  destruct (calls_in_order fresh_project eq_refl) as [Hprefix Hall].
  split; [exact Hprefix | apply Hall; reflexivity].
Defined.

(** * Further behaviour of the script *)

(** ** More about the loop *)

Lemma absent_entries_present m t f l :
  exists_in m (template_path f) = true →
  absent_entries m ((t, f) :: l) = absent_entries m l.
Proof. intros H. unfold absent_entries. cbn [List.filter snd]. by rewrite H. Qed.

Lemma absent_entries_absent m t f l :
  exists_in m (template_path f) = false →
  absent_entries m ((t, f) :: l) = (t, f) :: absent_entries m l.
Proof. intros H. unfold absent_entries. cbn [List.filter snd]. by rewrite H. Qed.

Lemma absent_entries_ext m1 m2 l :
  (∀ f, f ∈ snd <$> l →
        exists_in m1 (template_path f) = exists_in m2 (template_path f)) →
  absent_entries m1 l = absent_entries m2 l.
Proof.
  induction l as [|[t f] l IH]; intros H; [done|].
  assert (absent_entries m1 l = absent_entries m2 l) as Hl.
  { apply IH. intros g Hg. apply H. rewrite fmap_cons. by right. }
  assert (exists_in m1 (template_path f) = exists_in m2 (template_path f))
    as Hf by (apply H; rewrite fmap_cons; left).
  destruct (exists_in m2 (template_path f)) eqn:E.
  - by rewrite !absent_entries_present.
  - rewrite !absent_entries_absent by done. by rewrite Hl.
Qed.

Lemma exists_in_after_create_other t f w g :
  g ≠ f →
  exists_in (fs (after_create t f w)) (template_path g)
  = exists_in (fs w) (template_path g).
Proof.
  intros Hne. unfold after_create. cbn [fs].
  change (template_path g) with ["docs"; g]. cbn [exists_in].
  rewrite lookup_insert_ne; [done|]. intros [= ->]. done.
Qed.

(** Clock readings, notices and contents of the loop, entry by entry:
    the [j]-th missing file takes the [j]-th reading. *)
Lemma loop_run_absent l w w' :
  loop_run l w w' →
  NoDup (snd <$> l) →
  ticks w' = ticks w + length (absent_entries (fs w) l)
  ∧ stdout w' = stdout w ++ (created_notice ∘ snd <$> absent_entries (fs w) l)
  ∧ ∀ j t f, absent_entries (fs w) l !! j = Some (t, f) →
      fs w' !! template_path f
      = Some (File (template t (strftime (clock w (ticks w + j))))).
Proof.
  induction 1 as [w | t0 f0 l w w' Hpre Hrun IH | t0 f0 l w w' Habs Hrun IH];
    intros Hnd.
  - cbn. rewrite app_nil_r. repeat split; [lia|]. intros j t f Hj.
    by rewrite lookup_nil in Hj.
  - rewrite fmap_cons in Hnd. apply NoDup_cons in Hnd as [_ Hnd].
    destruct (IH Hnd) as (Ht & Ho & Hf). simpl_world.
    by rewrite absent_entries_present.
  - rewrite fmap_cons in Hnd. apply NoDup_cons in Hnd as [Hf0 Hnd].
    destruct (IH Hnd) as (Ht & Ho & Hf).
    assert (absent_entries (fs (after_create t0 f0 w)) l
            = absent_entries (fs w) l) as Hsame.
    { apply absent_entries_ext. intros g Hg.
      apply exists_in_after_create_other. intros ->. by apply Hf0. }
    rewrite Hsame in Ht, Ho, Hf.
    rewrite absent_entries_absent by done.
    assert (ticks (after_create t0 f0 w) = S (ticks w)) as Hticks by done.
    assert (clock (after_create t0 f0 w) = clock w) as Hclock by done.
    assert (stdout (after_create t0 f0 w)
            = stdout w ++ [created_notice f0]) as Hout by done.
    rewrite Hticks in Ht, Hf. rewrite Hclock in Hf. rewrite Hout in Ho.
    split; [cbn [length]; lia|]. split.
    { rewrite Ho, fmap_cons, <- app_assoc. done. }
    intros [|j] t f Hj.
    + cbn in Hj. injection Hj as <- <-. rewrite Nat.add_0_r.
      rewrite (loop_run_preserves _ _ _ _ Hrun).
      * unfold after_create. cbn [fs]. by rewrite lookup_insert_eq.
      * unfold after_create. cbn [fs]. apply exists_in_lookup; [done|].
        by rewrite lookup_insert_eq.
    + cbn in Hj. rewrite (Hf j t f Hj).
      by replace (S (ticks w) + j) with (ticks w + S j) by lia.
Qed.

(** When nothing is missing the loop only looks. *)
Lemma loop_run_all_present l w w' :
  loop_run l w w' →
  (∀ f, f ∈ snd <$> l → exists_in (fs w) (template_path f) = true) →
  fs w' = fs w ∧ ticks w' = ticks w ∧ stdout w' = stdout w
  ∧ calls w' = calls w ++ (EvExists ∘ template_path ∘ snd <$> l).
Proof.
  induction 1 as [w | t f l w w' Hpre Hrun IH | t f l w w' Habs Hrun IH];
    intros Hall.
  - cbn. by rewrite app_nil_r.
  - destruct IH as (-> & -> & -> & ->).
    { intros g Hg. apply Hall. rewrite fmap_cons. by right. }
    simpl_world. rewrite fmap_cons, <- app_assoc. done.
  - rewrite Hall in Habs; [done|]. rewrite fmap_cons. by left.
Qed.

Lemma exists_in_dom (m : gmap path node) (p : path) :
  p ≠ [] → exists_in m p = true ↔ p ∈ dom m.
Proof.
  intros Hp. rewrite elem_of_dom. by apply exists_in_lookup.
Qed.

(** The loop adds the template paths of its list and no other path. *)
Lemma loop_run_dom l w w' :
  loop_run l w w' →
  dom (fs w') = dom (fs w) ∪ list_to_set (template_path ∘ snd <$> l).
Proof.
  induction 1 as [w | t f l w w' Hpre Hrun IH | t f l w w' Habs Hrun IH].
  - cbn. by rewrite union_empty_r_L.
  - rewrite IH. simpl_world. rewrite fmap_cons, list_to_set_cons.
    apply exists_in_dom in Hpre; [|done]. cbn [compose snd].
    rewrite (assoc_L (∪)). f_equal. symmetry.
    rewrite (comm_L (∪)). apply subseteq_union_1_L.
    by apply singleton_subseteq_l.
  - rewrite IH. simpl_world. rewrite dom_insert_L, fmap_cons, list_to_set_cons.
    cbn [compose snd]. rewrite !(assoc_L (∪)). f_equal. apply (comm_L (∪)).
Qed.

Lemma absent_after_mkdir w :
  absent_entries (fs (after_mkdir (started w))) wiki_sections
  = absent_entries (fs w) wiki_sections.
Proof.
  apply absent_entries_ext. intros f _.
  change (template_path f) with ["docs"; f]. cbn [exists_in].
  by rewrite after_mkdir_lookup.
Qed.

(** ** When and how a run fails *)

(** X1. With [package.json] present, the run returns if and only if
    [docs] is not a regular file and [docs/README.md] is not a directory. *)
Theorem run_returns_exactly_when (w : world) :
  exists_in (fs w) package_json = true →
  (∃ w', main w = (Returned tt, w'))
  ↔ docs_usable (fs w) = true ∧ readme_writable (fs w) = true.
Proof. apply main_returns_iff. Qed.

Lemma run_returns_exactly_when_blocked :
  (∃ w', main blocked_project = (Returned tt, w'))
  ↔ docs_usable (fs blocked_project) = true
    ∧ readme_writable (fs blocked_project) = true.
Proof. apply (run_returns_exactly_when blocked_project). reflexivity. Defined.

(** X2. A regular file named [docs] stops the run at [mkdir] with
    [FileExistsError]: the filesystem is as before, the clock was not
    read, and only the banner was printed. *)
Theorem docs_file_stops_run (w : world) :
  exists_in (fs w) package_json = true →
  docs_usable (fs w) = false →
  ∃ w', main w = (Raised (FileExistsError docs_dir), w')
        ∧ fs w' = fs w
        ∧ ticks w' = ticks w
        ∧ stdout w' = stdout w ++ banner
        ∧ calls w' = calls w ++ [EvExists package_json; EvMkdir docs_dir].
Proof.
  intros Hm Hd. eexists. split; [by apply main_docs_file|].
  unfold logged, started. cbn [fs ticks stdout calls].
  by rewrite <- app_assoc.
Qed.

Lemma docs_file_stops_run_blocked :
  ∃ w', main blocked_project = (Raised (FileExistsError docs_dir), w')
        ∧ fs w' = fs blocked_project
        ∧ ticks w' = ticks blocked_project
        ∧ stdout w' = stdout blocked_project ++ banner
        ∧ calls w' = calls blocked_project
                     ++ [EvExists package_json; EvMkdir docs_dir].
Proof. apply (docs_file_stops_run blocked_project); reflexivity. Defined.

(** X3. A directory in the place of [docs/README.md] stops the run with
    [IsADirectoryError] only after the loop: every catalog file exists
    by then and stays (nothing is rolled back), a notice was printed for
    each file created, the closing notes were not, and the directory is
    still there. *)
Theorem readme_directory_stops_run_late (w : world) :
  exists_in (fs w) package_json = true →
  docs_usable (fs w) = true →
  readme_writable (fs w) = false →
  ∃ w', main w = (Raised (IsADirectoryError (readme_path docs_dir)), w')
        ∧ fs w' !! readme_path docs_dir = Some Dir
        ∧ Forall (λ entry, exists_in (fs w') (template_path entry.2) = true)
                 wiki_sections
        ∧ stdout w'
          = stdout w ++ banner
            ++ (created_notice ∘ snd
                <$> absent_entries (fs w) wiki_sections).
Proof.
  intros Hm Hd Hr.
  destruct (main_after_loop w Hm Hd) as (w2 & Hrun & [[Hr' _]|[_ Hres]]);
    [congruence|].
  exists (readme_refused w2). split; [done|].
  unfold readme_refused. cbn [fs stdout]. split; [|split].
  - pose proof (readme_is_dir_after_loop (started w) w2 Hrun) as Hsame.
    change (fs (started w)) with (fs w) in Hsame.
    unfold readme_writable in Hr. apply negb_false_iff in Hr.
    rewrite Hr in Hsame.
    change (readme_path docs_dir) with ["docs"; "README.md"] in *.
    cbn [is_dir] in Hsame.
    by destruct (fs w2 !! ["docs"; "README.md"]) as [[]|].
  - apply Forall_forall. intros [t f] Hin.
    by eapply templates_exist_after_loop.
  - destruct (loop_run_absent _ _ _ Hrun wiki_sections_filenames_NoDup)
      as (_ & -> & _).
    rewrite absent_after_mkdir. unfold after_mkdir, started. cbn [stdout].
    by rewrite <- app_assoc.
Qed.

Lemma readme_directory_stops_run_late_sample :
  ∃ w', main readme_dir_project
        = (Raised (IsADirectoryError (readme_path docs_dir)), w')
        ∧ fs w' !! readme_path docs_dir = Some Dir
        ∧ Forall (λ entry, exists_in (fs w') (template_path entry.2) = true)
                 wiki_sections
        ∧ stdout w'
          = stdout readme_dir_project ++ banner
            ++ (created_notice ∘ snd
                <$> absent_entries (fs readme_dir_project) wiki_sections).
Proof.
  apply (readme_directory_stops_run_late readme_dir_project); reflexivity.
Defined.

(** ** What a run leaves alone *)

(** X4. However the run ends, a path other than [docs], the index and
    the thirteen template paths holds after the run what it held before;
    [package.json] in particular is never written. *)
Theorem run_touches_only_scaffold_paths (w : world) (p : path) :
  p ∉ scaffold_paths →
  fs (main w).2 !! p = fs w !! p.
Proof.
  unfold scaffold_paths. intros Hp.
  apply not_elem_of_cons in Hp as [Hdocs Hp].
  apply not_elem_of_cons in Hp as [Hreadme Hcat].
  destruct (exists_in (fs w) package_json) eqn:Hm;
    [|by rewrite main_without_manifest].
  destruct (docs_usable (fs w)) eqn:Hd; [|by rewrite main_docs_file].
  destruct (main_after_loop w Hm Hd) as (w2 & Hrun & Hres).
  assert (fs w2 !! p = fs w !! p) as Hloop.
  { rewrite (loop_run_other _ _ _ _ Hrun) by done.
    by rewrite after_mkdir_lookup. }
  destruct Hres as [[_ ->]|[_ ->]]; cbn [snd]; [|done].
  unfold after_readme. cbn [fs]. by rewrite lookup_insert_ne.
Qed.

Lemma run_touches_only_scaffold_paths_manifest :
  fs (main fresh_project).2 !! package_json = fs fresh_project !! package_json.
Proof.
  apply (run_touches_only_scaffold_paths fresh_project package_json).
  apply (bool_decide_unpack _). by vm_compute.
Defined.



Lemma dom_after_mkdir w :
  dom (fs (after_mkdir w)) = {[docs_dir]} ∪ dom (fs w).
Proof.
  unfold after_mkdir. cbn [fs]. destruct (fs w !! docs_dir) eqn:E.
  - symmetry. apply subseteq_union_1_L, singleton_subseteq_l.
    apply elem_of_dom. by rewrite E.
  - by rewrite dom_insert_L.
Qed.

(** X6. A run that returns adds to the filesystem exactly the paths
    [docs], [docs/README.md] and the thirteen template paths, as far as
    they were missing; no other path appears. *)
Theorem run_adds_exactly_scaffold_paths (w : world) :
  exists_in (fs w) package_json = true →
  docs_usable (fs w) = true →
  readme_writable (fs w) = true →
  ∃ w', main w = (Returned tt, w')
        ∧ dom (fs w') = dom (fs w) ∪ list_to_set scaffold_paths.
Proof.
  intros Hm Hd Hr. destruct (main_returns w Hm Hd Hr) as (w2 & Hrun & Hres).
  exists (after_readme w2). split; [done|].
  unfold after_readme. cbn [fs].
  rewrite dom_insert_L, (loop_run_dom _ _ _ Hrun), dom_after_mkdir.
  change (fs (started w)) with (fs w).
  unfold scaffold_paths. rewrite !list_to_set_cons.
  fold catalog_paths. generalize (list_to_set catalog_paths : gset path).
  intros S. apply set_eq. intros p.
  rewrite !elem_of_union, !elem_of_singleton. tauto.
Qed.

Lemma run_adds_exactly_scaffold_paths_fresh :
  ∃ w', main fresh_project = (Returned tt, w')
        ∧ dom (fs w') = dom (fs fresh_project) ∪ list_to_set scaffold_paths.
Proof.
  apply (run_adds_exactly_scaffold_paths fresh_project); reflexivity.
Defined.

(** ** Clock readings and notices of a run that returns *)

Lemma absent_entries_in m l t f j :
  absent_entries m l !! j = Some (t, f) → (t, f) ∈ l.
Proof.
  intros Hj. apply list_elem_of_lookup_2 in Hj.
  apply list_elem_of_In, filter_In in Hj as [Hin _].
  by apply list_elem_of_In.
Qed.

(** X8. A run that returns reads the clock once for each file it creates
    and once more for the index: the [j]-th missing catalog file, in
    catalog order, carries the [j]-th reading of the run, and the index
    carries the reading after the last of them. *)
Theorem created_files_take_readings_in_order (w : world) :
  exists_in (fs w) package_json = true →
  docs_usable (fs w) = true →
  readme_writable (fs w) = true →
  let missing := absent_entries (fs w) wiki_sections in
  ∃ w', main w = (Returned tt, w')
        ∧ ticks w' = ticks w + length missing + 1
        ∧ (∀ j t f, missing !! j = Some (t, f) →
             fs w' !! template_path f
             = Some (File (template t (strftime (clock w (ticks w + j))))))
        ∧ fs w' !! readme_path docs_dir
          = Some (File (readme_content
                          (strftime (clock w (ticks w + length missing))))).
Proof.
  intros Hm Hd Hr missing.
  destruct (main_returns w Hm Hd Hr) as (w2 & Hrun & Hres).
  destruct (loop_run_absent _ _ _ Hrun wiki_sections_filenames_NoDup)
    as (Hticks & _ & Hfiles).
  destruct (loop_run_frame _ _ _ Hrun) as (_ & Hclock & _).
  rewrite absent_after_mkdir in Hticks, Hfiles. fold missing in Hticks, Hfiles.
  change (ticks (after_mkdir (started w))) with (ticks w) in Hticks, Hfiles.
  change (clock (after_mkdir (started w))) with (clock w) in Hclock, Hfiles.
  exists (after_readme w2). split; [done|].
  unfold after_readme. cbn [fs ticks]. split; [lia|]. split.
  - intros j t f Hj. rewrite lookup_insert_ne; [by apply Hfiles|].
    apply not_eq_sym, template_path_not_readme.
    apply absent_entries_in in Hj. by apply (list_elem_of_fmap_2 snd) in Hj.
  - by rewrite lookup_insert_eq, Hclock, Hticks.
Qed.

Lemma created_files_take_readings_in_order_partial :
  let missing := absent_entries (fs partial_project) wiki_sections in
  ∃ w', main partial_project = (Returned tt, w')
        ∧ ticks w' = ticks partial_project + length missing + 1
        ∧ (∀ j t f, missing !! j = Some (t, f) →
             fs w' !! template_path f
             = Some (File (template t (strftime
                                         (clock partial_project
                                                (ticks partial_project + j))))))
        ∧ fs w' !! readme_path docs_dir
          = Some (File (readme_content
                          (strftime (clock partial_project
                                       (ticks partial_project + length missing))))).
Proof.
  apply (created_files_take_readings_in_order partial_project); reflexivity.
Defined.

(** X9. What a run that returns prints after the banner: one
    "Created template" notice for each catalog file that was missing, in
    catalog order, none for a file that was there, then the closing notes
    with the absolute path of [docs]. *)
Theorem run_prints_notice_per_created_file (w : world) :
  exists_in (fs w) package_json = true →
  docs_usable (fs w) = true →
  readme_writable (fs w) = true →
  ∃ w', main w = (Returned tt, w')
        ∧ stdout w'
          = stdout w ++ banner
            ++ (created_notice ∘ snd <$> absent_entries (fs w) wiki_sections)
            ++ closing_notes (slash_join (cwd w ++ docs_dir)).
Proof.
  intros Hm Hd Hr.
  destruct (main_returns w Hm Hd Hr) as (w2 & Hrun & Hres).
  destruct (loop_run_absent _ _ _ Hrun wiki_sections_filenames_NoDup)
    as (_ & Hout & _).
  destruct (loop_run_frame _ _ _ Hrun) as (Hcwd & _).
  rewrite absent_after_mkdir in Hout.
  exists (after_readme w2). split; [done|].
  unfold after_readme. cbn [stdout]. rewrite Hout, Hcwd.
  unfold after_mkdir, started. cbn [stdout cwd]. by rewrite <- !app_assoc.
Qed.

Lemma run_prints_notice_per_created_file_partial :
  ∃ w', main partial_project = (Returned tt, w')
        ∧ stdout w'
          = stdout partial_project ++ banner
            ++ (created_notice ∘ snd
                <$> absent_entries (fs partial_project) wiki_sections)
            ++ closing_notes (slash_join (cwd partial_project ++ docs_dir)).
Proof.
  apply (run_prints_notice_per_created_file partial_project); reflexivity.
Defined.

(** X10. On a project that already has [docs] and all thirteen catalog
    files, a run changes one thing in the filesystem: it writes the
    index.  It reads the clock once, only checks the catalog files, and
    prints no notice. *)
Theorem run_on_scaffolded_project_writes_index_only (w : world) :
  exists_in (fs w) package_json = true →
  is_dir (fs w) docs_dir = true →
  all_templates_present (fs w) = true →
  readme_writable (fs w) = true →
  ∃ w', main w = (Returned tt, w')
        ∧ fs w'
          = <[readme_path docs_dir :=
                File (readme_content (strftime (clock w (ticks w))))]> (fs w)
        ∧ ticks w' = S (ticks w)
        ∧ calls w'
          = calls w ++ [EvExists package_json; EvMkdir docs_dir]
            ++ (EvExists <$> catalog_paths)
            ++ [EvOpenW (readme_path docs_dir)]
        ∧ stdout w'
          = stdout w ++ banner
            ++ closing_notes (slash_join (cwd w ++ docs_dir)).
Proof.
  intros Hm Hdir Hall Hr.
  assert (docs_usable (fs w) = true) as Hd.
  { unfold docs_usable. change docs_dir with ["docs"] in *.
    cbn [is_dir] in Hdir. by destruct (fs w !! ["docs"]) as [[]|]. }
  assert (fs (after_mkdir (started w)) = fs w) as Hfs.
  { unfold after_mkdir, started. cbn [fs]. change docs_dir with ["docs"] in *.
    cbn [is_dir] in Hdir. by destruct (fs w !! ["docs"]). }
  destruct (main_returns w Hm Hd Hr) as (w2 & Hrun & Hres).
  destruct (loop_run_frame _ _ _ Hrun) as (Hcwd & Hclock & _).
  destruct (loop_run_all_present _ _ _ Hrun) as (Hfs2 & Hticks & Hout & Hcalls).
  { intros f Hf. rewrite Hfs. apply list_elem_of_fmap in Hf as ([t g] & -> & Hin).
    by apply (all_templates_present_spec (fs w)) with t. }
  exists (after_readme w2). split; [done|].
  unfold after_readme. cbn [fs ticks calls stdout].
  rewrite Hfs2, Hfs, Hticks, Hclock, Hcalls, Hout, Hcwd.
  unfold after_mkdir, started. cbn [ticks clock calls stdout cwd].
  repeat split; try done.
  - assert (EvExists ∘ template_path ∘ snd <$> wiki_sections
            = EvExists <$> catalog_paths) as ->
      by (unfold catalog_paths; by rewrite !list_fmap_compose).
    by rewrite <- !app_assoc.
  - by rewrite <- app_assoc.
Qed.

Lemma run_on_scaffolded_project_writes_index_only_edited :
  ∃ w', main edited_project = (Returned tt, w')
        ∧ fs w'
          = <[readme_path docs_dir :=
                File (readme_content
                        (strftime (clock edited_project (ticks edited_project))))]>
              (fs edited_project)
        ∧ ticks w' = S (ticks edited_project)
        ∧ calls w'
          = calls edited_project ++ [EvExists package_json; EvMkdir docs_dir]
            ++ (EvExists <$> catalog_paths)
            ++ [EvOpenW (readme_path docs_dir)]
        ∧ stdout w'
          = stdout edited_project ++ banner
            ++ closing_notes (slash_join (cwd edited_project ++ docs_dir)).
Proof.
  apply (run_on_scaffolded_project_writes_index_only edited_project);
    vm_compute; reflexivity.
Defined.

(** ** The three functions called on their own *)

(** X11. [create_section_template] makes no existence check of its own.
    It returns exactly when the directory of [file_path] exists and
    [file_path] is not a directory; it then replaces whatever node was
    there by the template, and otherwise leaves the filesystem as it
    was.  The clock is read in either case. *)
Theorem create_section_template_outcomes (w : world) (p : path) (t : string) :
  let w' := (create_section_template p t w).2 in
  ((∃ v, create_section_template p t w = (Returned tt, v))
   ↔ is_dir (fs w) (parent p) = true ∧ is_dir (fs w) p = false)
  ∧ (is_dir (fs w) (parent p) = true ∧ is_dir (fs w) p = false →
     fs w' = <[p := File (template t (strftime (clock w (ticks w))))]> (fs w))
  ∧ (¬ (is_dir (fs w) (parent p) = true ∧ is_dir (fs w) p = false) →
     fs w' = fs w)
  ∧ ticks w' = S (ticks w).
Proof.
  cbn zeta. unfold create_section_template. run_M.
  destruct (is_dir (fs w) (parent p)) eqn:Hpar;
    [destruct (is_dir (fs w) p) eqn:Hp|]; cbn [snd fs ticks set_fs];
    unfold set_fs; cbn [fs ticks].
  all: repeat split;
    first [ done | by eexists | by intros [v [=]] | by intros [[=] _]
          | by intros [_ [=]] | (intros H; by destruct H)
          | match goal with
            | H : ∃ _, _ = _ |- _ => by destruct H as [? [=]]
            end ].
Qed.

(** X12. [create_main_readme] writes [README.md] into whatever
    directory it is given, with a text that depends on the clock alone.
    It returns exactly when that directory exists and holds no directory
    named [README.md]; otherwise the filesystem is as it was. *)
Theorem create_main_readme_outcomes (w : world) (dir : path) :
  let w' := (create_main_readme dir w).2 in
  ((∃ v, create_main_readme dir w = (Returned tt, v))
   ↔ is_dir (fs w) dir = true ∧ is_dir (fs w) (readme_path dir) = false)
  ∧ (is_dir (fs w) dir = true ∧ is_dir (fs w) (readme_path dir) = false →
     fs w' = <[readme_path dir :=
                 File (readme_content (strftime (clock w (ticks w))))]> (fs w))
  ∧ (¬ (is_dir (fs w) dir = true ∧ is_dir (fs w) (readme_path dir) = false) →
     fs w' = fs w)
  ∧ ticks w' = S (ticks w).
Proof.
  cbn zeta. unfold create_main_readme. run_M.
  assert (parent (readme_path dir) = dir) as ->
    by (unfold parent, readme_path, path_join; apply removelast_last).
  destruct (is_dir (fs w) dir) eqn:Hpar;
    [destruct (is_dir (fs w) (readme_path dir)) eqn:Hp|];
    cbn [snd fs ticks set_fs]; unfold set_fs; cbn [fs ticks].
  all: repeat split;
    first [ done | by eexists | by intros [v [=]] | by intros [[=] _]
          | by intros [_ [=]] | (intros H; by destruct H)
          | match goal with
            | H : ∃ _, _ = _ |- _ => by destruct H as [? [=]]
            end ].
Qed.

(** X13. The check for [package.json] is made by [main] alone:
    [create_wiki_structure] never looks for the manifest and scaffolds
    [docs] in any directory in which [docs] and the index can be
    written. *)
Theorem create_wiki_structure_has_no_guard (w : world) :
  docs_usable (fs w) = true →
  readme_writable (fs w) = true →
  ∃ w', create_wiki_structure w = (Returned tt, w')
        ∧ calls w'
          = calls w ++ [EvMkdir docs_dir]
            ++ template_calls (fs w) wiki_sections
            ++ [EvOpenW (readme_path docs_dir)]
        ∧ Forall (λ entry, exists_in (fs w') (template_path entry.2) = true)
                 wiki_sections
        ∧ ∃ text, fs w' !! readme_path docs_dir = Some (File text).
Proof.
  intros Hd Hr.
  destruct (create_wiki_structure_returns w Hd Hr) as (w2 & Hrun & Hres).
  exists (after_readme w2). split; [done|].
  unfold after_readme. cbn [fs calls]. split; [|split].
  - rewrite (loop_run_calls _ _ _ Hrun) by apply wiki_sections_filenames_NoDup.
    assert (template_calls (fs (after_mkdir w)) wiki_sections
            = template_calls (fs w) wiki_sections) as ->.
    { apply template_calls_ext. intros f _.
      change (template_path f) with ["docs"; f]. cbn [exists_in].
      by rewrite after_mkdir_lookup. }
    unfold after_mkdir. cbn [calls]. by rewrite <- !app_assoc.
  - apply Forall_forall. intros [t f] Hin. apply exists_in_insert.
    by eapply loop_run_exists.
  - eexists. by rewrite lookup_insert_eq.
Qed.

Lemma create_wiki_structure_has_no_guard_outside :
  exists_in (fs outside_project) package_json = false
  ∧ ∃ w', create_wiki_structure outside_project = (Returned tt, w')
          ∧ calls w'
            = calls outside_project ++ [EvMkdir docs_dir]
              ++ template_calls (fs outside_project) wiki_sections
              ++ [EvOpenW (readme_path docs_dir)]
          ∧ Forall (λ entry, exists_in (fs w') (template_path entry.2) = true)
                   wiki_sections
          ∧ ∃ text, fs w' !! readme_path docs_dir = Some (File text).
Proof.
  split; [reflexivity|].
  apply (create_wiki_structure_has_no_guard outside_project); reflexivity.
Defined.

(** ** The index a run leaves on disk *)

(** A run that returns leaves at [docs/README.md] a regular file whose
    text is the f-string of [create_main_readme] around the last clock
    reading of the run. *)
Lemma main_leaves_readme w :
  exists_in (fs w) package_json = true →
  docs_usable (fs w) = true →
  readme_writable (fs w) = true →
  ∃ w', main w = (Returned tt, w')
        ∧ fs w' !! readme_path docs_dir
          = Some (File (readme_content (strftime (clock w (ticks w' - 1)))))
        ∧ ∀ t f, (t, f) ∈ wiki_sections →
                 exists_in (fs w') (template_path f) = true.
Proof.
  intros Hm Hd Hr. destruct (main_returns w Hm Hd Hr) as (w2 & Hrun & Hres).
  exists (after_readme w2). split; [done|].
  destruct (loop_run_frame _ _ _ Hrun) as (_ & Hclock & _).
  change (clock (after_mkdir (started w))) with (clock w) in Hclock.
  unfold after_readme. cbn [fs ticks]. split.
  - replace (S (ticks w2) - 1) with (ticks w2) by lia.
    by rewrite lookup_insert_eq, Hclock.
  - intros t f Hin. apply exists_in_insert.
    by eapply templates_exist_after_loop.
Qed.

(** C7. The file a returning run leaves at [docs/README.md] has: the
    title as its level-1 heading; on its third line the timestamp of the
    last clock reading of the run; exactly four level-3 groups, named
    "Getting Started", "Architecture", "Development" and "Data &
    Infrastructure", whose links together are the thirteen catalog files;
    the section "How to Use This Documentation" with its four steps; and
    the section "Export Instructions", which names [export-docs.bat] (in
    Windows notation) and [export-docs.sh] in the [scripts] directory. *)
Theorem generated_readme_text (w : world) :
  exists_in (fs w) package_json = true →
  docs_usable (fs w) = true →
  readme_writable (fs w) = true →
  ∃ w' text,
    main w = (Returned tt, w')
    ∧ fs w' !! readme_path docs_dir = Some (File text)
    ∧ headings text
      = [ (1, "FriendFinder Documentation");
          (2, "Documentation Sections");
          (3, "Getting Started"); (3, "Architecture");
          (3, "Development"); (3, "Data & Infrastructure");
          (2, "How to Use This Documentation");
          (2, "Preservation Methods");
          (2, "Export Instructions") ]
    ∧ lines text !! 2
      = Some ("*Extracted from Qoder Wiki Catalog on "
              +:+ strftime (clock w (ticks w' - 1)) +:+ "*")
    ∧ fst <$> link_groups text
      = ["Getting Started"; "Architecture"; "Development";
         "Data & Infrastructure"]
    ∧ index_links text ≡ₚ catalog_paths
    ∧ sections 2 text !! 1
      = Some ("How to Use This Documentation", usage_steps)
    ∧ ∃ body, sections 2 text !! 3 = Some ("Export Instructions", body)
              ∧ ["scripts"; "export-docs.bat"] ∈ split_on "\" <$> body
              ∧ ["scripts"; "export-docs.sh"] ∈ resolve [] <$> body.
Proof.
  intros Hm Hd Hr.
  destruct (main_leaves_readme w Hm Hd Hr) as (w' & Hres & Hfile & _).
  exists w', (readme_content (strftime (clock w (ticks w' - 1)))).
  split; [done|]. split; [done|].
  apply (readme_text (clock w (ticks w' - 1))).
Qed.

Lemma generated_readme_text_fresh :
  ∃ w' text,
    main fresh_project = (Returned tt, w')
    ∧ fs w' !! readme_path docs_dir = Some (File text)
    ∧ headings text
      = [ (1, "FriendFinder Documentation");
          (2, "Documentation Sections");
          (3, "Getting Started"); (3, "Architecture");
          (3, "Development"); (3, "Data & Infrastructure");
          (2, "How to Use This Documentation");
          (2, "Preservation Methods");
          (2, "Export Instructions") ]
    ∧ lines text !! 2
      = Some ("*Extracted from Qoder Wiki Catalog on "
              +:+ strftime (clock fresh_project (ticks w' - 1)) +:+ "*")
    ∧ fst <$> link_groups text
      = ["Getting Started"; "Architecture"; "Development";
         "Data & Infrastructure"]
    ∧ index_links text ≡ₚ catalog_paths
    ∧ sections 2 text !! 1
      = Some ("How to Use This Documentation", usage_steps)
    ∧ ∃ body, sections 2 text !! 3 = Some ("Export Instructions", body)
              ∧ ["scripts"; "export-docs.bat"] ∈ split_on "\" <$> body
              ∧ ["scripts"; "export-docs.sh"] ∈ resolve [] <$> body.
Proof.
  apply (generated_readme_text fresh_project); reflexivity.
Defined.

(** C10. In the file a returning run leaves at [docs/README.md], the
    link targets found anywhere in the text are, resolved against
    [docs/], the thirteen catalog files, each exactly once, and each of
    them exists after the run, although [create_main_readme] does not
    read the catalog. *)
Theorem generated_readme_links_exactly_catalog (w : world) :
  exists_in (fs w) package_json = true →
  docs_usable (fs w) = true →
  readme_writable (fs w) = true →
  ∃ w' text,
    main w = (Returned tt, w')
    ∧ fs w' !! readme_path docs_dir = Some (File text)
    ∧ scan_links text ≡ₚ (λ entry, "./" +:+ entry.2) <$> wiki_sections
    ∧ resolve docs_dir <$> scan_links text ≡ₚ catalog_paths
    ∧ NoDup (resolve docs_dir <$> scan_links text)
    ∧ Forall (λ p, exists_in (fs w') p = true)
             (resolve docs_dir <$> scan_links text).
Proof.
  intros Hm Hd Hr.
  destruct (main_leaves_readme w Hm Hd Hr) as (w' & Hres & Hfile & Hex).
  exists w', (readme_content (strftime (clock w (ticks w' - 1)))).
  split; [done|]. split; [done|].
  destruct (readme_links_exactly_catalog (clock w (ticks w' - 1)))
    as (Htargets & Hpaths & Hnodup).
  do 3 (split; [done|]).
  rewrite Hpaths. unfold catalog_paths.
  apply Forall_forall. intros p Hp.
  apply list_elem_of_fmap in Hp as ([t f] & -> & Hin). by apply (Hex t f).
Qed.

Lemma generated_readme_links_exactly_catalog_fresh :
  ∃ w' text,
    main fresh_project = (Returned tt, w')
    ∧ fs w' !! readme_path docs_dir = Some (File text)
    ∧ scan_links text ≡ₚ (λ entry, "./" +:+ entry.2) <$> wiki_sections
    ∧ resolve docs_dir <$> scan_links text ≡ₚ catalog_paths
    ∧ NoDup (resolve docs_dir <$> scan_links text)
    ∧ Forall (λ p, exists_in (fs w') p = true)
             (resolve docs_dir <$> scan_links text).
Proof.
  apply (generated_readme_links_exactly_catalog fresh_project); reflexivity.
Defined.
